(** * A supervisor of user scripts: process registry and lifecycle controller

    Shallow embedding of [app.py]: the persisted process table
    ([load_state], [save_state]), the liveness query ([get_process_info]) and
    the handlers [index], [logs], [start], [stop] and [delete_script].  The
    upload and package-install handlers do not touch the registry and are
    left out.

    Python values are an inductive type, the registry is a finite map from
    script names to values, handlers are computations in a state-and-exception
    monad over a [world] (the registry file, the two directories, the
    operating system and a log of the effects performed).  The operating
    system is an interface ([Kernel]): every theorem stated over an arbitrary
    kernel holds whatever the OS answers; [Machine] is one concrete kernel,
    used to run the handlers on examples.

    Modelling conventions, all outside what the theorems depend on:
    - a Python float is the rational it denotes (no rounding, no NaN);
    - the registry file is described by what opening and decoding it gives;
      [json.dump] followed by [json.load] is the identity on JSON values;
    - writing the registry file, opening a log for append and removing an
      existing file succeed;
    - a log is kept as the lines that reading it gives, each a string of
      bytes; the platform's text encoding is UTF-8;
    - one handler runs at a time; the process table moves only through
      [kill], [sleep] and [popen]. *)

From Stdlib Require Import ZArith QArith Ascii String List Bool.
From stdpp Require Import gmap strings list fin_maps sorting.

Set Warnings "-register-all".
Local Open Scope string_scope.
Local Open Scope list_scope.
Local Open Scope Z_scope.

(** ** Python values *)

(** What [json.load] can return, and so what a registry slot can hold. *)
Inductive pyval :=
| PNone
| PBool (b : bool)
| PInt (z : Z)
| PFloat (q : Q)
| PStr (s : string)
| PList (l : list pyval)
| PDict (d : gmap string pyval).

(** [bool(v)], the test behind [if pid:]. *)
Definition truthy (v : pyval) : bool :=
  match v with
  | PNone => false
  | PBool b => b
  | PInt z => negb (z =? 0)
  | PFloat q => negb (Qeq_bool q 0)
  | PStr s => negb (String.eqb s "")
  | PList l => negb (Nat.eqb (List.length l) 0)
  | PDict d => negb (Nat.eqb (size d) 0)
  end.

(** The integer a value stands for where Python wants an [int]
    ([bool] is a subclass of [int]). *)
Definition as_int (v : pyval) : option Z :=
  match v with
  | PInt z => Some z
  | PBool b => Some (Z.b2z b)
  | _ => None
  end.

(** Exceptions raised by the interpreter, [psutil], [os] and [subprocess]. *)
Inductive exn :=
| TypeError
| ValueError
| AttributeError
| KeyError
| OverflowError
| NoSuchProcess
| ZombieProcess
| AccessDenied
| ProcessLookupError
| PermissionError
| FileNotFoundError
| OSError
| UnicodeDecodeError.

Definition result (A : Type) : Type := (exn + A)%type.

(** [ZombieProcess] is a subclass of [NoSuchProcess]. *)
Definition is_NoSuchProcess (e : exn) : bool :=
  match e with
  | NoSuchProcess | ZombieProcess => true
  | _ => false
  end.

(** *** Operations on the loaded state *)

(** [state.get(key)]: only a dict has the method. *)
Definition py_get (state : pyval) (key : string) : result pyval :=
  match state with
  | PDict d => inr (default PNone (d !! key))
  | _ => inl AttributeError
  end.

(** [needle in hay] for two strings: substring test. *)
Fixpoint is_substring (needle hay : string) : bool :=
  String.prefix needle hay ||
  match hay with
  | EmptyString => false
  | String _ rest => is_substring needle rest
  end.

(** [key == v] for a string [key]. *)
Definition str_eq (key : string) (v : pyval) : bool :=
  match v with
  | PStr s => String.eqb key s
  | _ => false
  end.

(** [key in state]. *)
Definition py_contains (key : string) (state : pyval) : result bool :=
  match state with
  | PDict d => inr (bool_decide (is_Some (d !! key)))
  | PList l => inr (existsb (str_eq key) l)
  | PStr s => inr (is_substring key s)
  | _ => inl TypeError
  end.

(** [state[key]]. *)
Definition py_getitem (state : pyval) (key : string) : result pyval :=
  match state with
  | PDict d => match d !! key with Some v => inr v | None => inl KeyError end
  | _ => inl TypeError
  end.

(** [state[key] = v]; the dict is updated in place. *)
Definition py_setitem (state : pyval) (key : string) (v : pyval) : result pyval :=
  match state with
  | PDict d => inr (PDict (<[key := v]> d))
  | _ => inl TypeError
  end.

(** [del state[key]]. *)
Definition py_delitem (state : pyval) (key : string) : result pyval :=
  match state with
  | PDict d =>
      match d !! key with
      | Some _ => inr (PDict (delete key d))
      | None => inl KeyError
      end
  | _ => inl TypeError
  end.

(** ** The operating system *)

Inductive signal := SIGTERM | SIGKILL.

(** [psutil.STATUS_ZOMBIE]. *)
Definition STATUS_ZOMBIE : string := "zombie".

(** The services the handlers ask of the OS.  Queries read the kernel state;
    [kill], [sleep] and [popen] move it. *)
Class Kernel (K : Type) := {
  (** [os.getpid()]: the supervisor itself *)
  getpid : K -> Z;
  (** attaching to a process, the last step of [psutil.Process(pid)];
      [None] when the handle is obtained *)
  proc_attach : K -> Z -> option exn;
  (** [Process.status()] *)
  proc_status : K -> Z -> result string;
  (** [Process.cpu_percent()] *)
  proc_cpu_percent : K -> Z -> result Q;
  (** [Process.memory_info().rss], in bytes *)
  proc_rss : K -> Z -> result Z;
  (** the platform test behind [psutil.pid_exists] *)
  pid_alive : K -> Z -> bool;
  (** [os.kill(pid, sig)] *)
  kill : K -> Z -> signal -> K * option exn;
  (** [time.sleep(secs)] *)
  sleep : K -> Z -> K;
  (** [subprocess.Popen(argv, start_new_session=True)], giving the child's pid *)
  popen : K -> list string -> K * result positive;
  (** [psutil.disk_usage('/').percent] *)
  disk_percent : K -> Q;
  (** [psutil.cpu_percent()] *)
  sys_cpu_percent : K -> Q
}.

(** ** The world *)

(** The registry file [process_state.json], by what reading it gives. *)
Inductive pid_file_state :=
| Absent                     (* [os.path.exists] is false *)
| Unreadable                 (* [open] raises *)
| Malformed                  (* [json.load] raises *)
| Document (v : pyval).      (* [json.load] returns [v] *)

Inductive event :=
| EvProcess (pid : pyval)            (* [psutil.Process(pid)] *)
| EvKill (pid : Z) (sig : signal)    (* [os.kill] *)
| EvSleep (secs : Z)                 (* [time.sleep] *)
| EvPidExists (pid : Z)              (* [psutil.pid_exists] *)
| EvOpenAppend (name : string)       (* [open(log_path, "a")] *)
| EvPopen (argv : list string)       (* [subprocess.Popen] *)
| EvRemove (path : string)           (* [os.remove] *)
| EvSave (state : pyval).            (* [save_state] *)

Record world (K : Type) := World {
  kernel : K;
  pid_file : pid_file_state;
  scripts_dir : list string;               (* [os.listdir(SCRIPTS_DIR)] *)
  logs_dir : gmap string (list string);    (* log file name -> its lines *)
  trace : list event                       (* effects so far, oldest first *)
}.
Arguments World {K}.
Arguments kernel {K}.
Arguments pid_file {K}.
Arguments scripts_dir {K}.
Arguments logs_dir {K}.
Arguments trace {K}.

(** ** Computations: state and exceptions *)

Section Handlers.
Context {K : Type} `{Kernel K}.

(** A computation runs in a world and ends by returning or by raising; the
    effects performed before a raise stay. *)
Definition M (A : Type) : Type := world K -> result A * world K.

Definition ret {A} (a : A) : M A := fun w => (inr a, w).
Definition raise {A} (e : exn) : M A := fun w => (inl e, w).
Definition bind {A B} (m : M A) (f : A -> M B) : M B :=
  fun w =>
    match m w with
    | (inl e, w') => (inl e, w')
    | (inr a, w') => f a w'
    end.
Definition lift {A} (r : result A) : M A := fun w => (r, w).

(** [try: body except <catches>: handler] *)
Definition try_except {A} (body : M A) (catches : exn -> bool) (handler : M A) : M A :=
  fun w =>
    match body w with
    | (inl e, w') => if catches e then handler w' else (inl e, w')
    | (inr a, w') => (inr a, w')
    end.

(** A bare [except:]. *)
Definition any_exception (e : exn) : bool := true.

Notation "'let*' x := m 'in' k" := (bind m (fun x => k))
  (at level 10, x name, m at level 200, k at level 200, only parsing).
Notation "'let*' ' pat := m 'in' k" := (bind m (fun x => match x with pat => k end))
  (at level 10, pat pattern, m at level 200, k at level 200, only parsing).
Notation "m >> k" := (bind m (fun _ => k))
  (at level 99, k at level 200, right associativity, only parsing).

Definition emit (e : event) : M unit :=
  fun w => (inr tt, World (kernel w) (pid_file w) (scripts_dir w) (logs_dir w)
                          (trace w ++ [e])%list).
Definition get_kernel : M K := fun w => (inr (kernel w), w).
Definition put_kernel (k : K) : M unit :=
  fun w => (inr tt, World k (pid_file w) (scripts_dir w) (logs_dir w) (trace w)).

(** ** The process registry *)

Definition pid_file_exists : M bool :=
  fun w => (inr (match pid_file w with Absent => false | _ => true end), w).

(** [with open(PID_FILE, "r") as f: json.load(f)] *)
Definition read_pid_file : M pyval :=
  fun w =>
    match pid_file w with
    | Absent => (inl FileNotFoundError, w)
    | Unreadable => (inl PermissionError, w)
    | Malformed => (inl ValueError, w)       (* [JSONDecodeError] is a [ValueError] *)
    | Document v => (inr v, w)
    end.

Definition load_state : M pyval :=
  let* present := pid_file_exists in
  if (present : bool) then
    try_except read_pid_file any_exception (ret (PDict ∅))
  else ret (PDict ∅).

Definition save_state (state : pyval) : M unit :=
  emit (EvSave state) >>
  fun w => (inr tt, World (kernel w) (Document state) (scripts_dir w) (logs_dir w)
                          (trace w)).

(** ** Liveness and metrics *)

(** [psutil.Process(pid)]: [None] stands for the calling process, anything
    else must be a non-negative [int]; the result is the pid of the handle.
    A [bool] passes the [int] test, but the process is looked up under the
    text of the value and no process is called [True] or [False]. *)
Definition psutil_Process (pid : pyval) : M Z :=
  emit (EvProcess pid) >>
  let* k := get_kernel in
  let* z := match pid with
       | PNone => ret (getpid k)
       | PBool _ => raise NoSuchProcess
       | _ => match as_int pid with
              | None => raise TypeError
              | Some z => if z <? 0 then raise ValueError else ret z
              end
       end in
  match proc_attach k z with
  | Some e => raise e
  | None => ret z
  end.

Definition get_process_info (pid : pyval) : M (string * pyval * pyval) :=
  try_except
    (let* p := psutil_Process pid in
     let* k := get_kernel in
     let* st := lift (proc_status k p) in
     if String.eqb st STATUS_ZOMBIE then ret ("Zombie", PInt 0, PInt 0)
     else
       let* cpu := lift (proc_cpu_percent k p) in
       let* rss := lift (proc_rss k p) in
       ret ("Running", PFloat cpu, PFloat (inject_Z rss / inject_Z (1024 * 1024))))
    is_NoSuchProcess
    (ret ("Stopped", PInt 0, PInt 0)).

(** ** The pages *)

(** One element of [scripts_data]. *)
Record row := Row {
  r_name : string;
  r_status : string;
  r_pid : pyval;
  r_cpu : pyval;
  r_mem : pyval
}.

Inductive response :=
| Redirect (location : string)
| Rendered (scripts : list row) (disk_percent cpu_percent : Q)
           (current_log_name : option string) (log_content : option string).

(** [s.endswith(suffix)] *)
Definition endswith (s suffix : string) : bool :=
  let n := String.length s in
  let m := String.length suffix in
  (m <=? n)%nat && String.eqb (substring (n - m) m s) suffix.

(** [sorted] on strings, by insertion. *)
Fixpoint insert_sorted (x : string) (l : list string) : list string :=
  match l with
  | [] => [x]
  | y :: l' => if String.leb x y then x :: l else y :: insert_sorted x l'
  end.
Definition sorted (l : list string) : list string :=
  fold_right insert_sorted [] l.

(** [sorted([f for f in os.listdir(SCRIPTS_DIR) if f.endswith(".py")])] *)
Definition list_scripts : M (list string) :=
  fun w => (inr (sorted (List.filter (fun f => endswith f ".py") (scripts_dir w))), w).

(** [pid if pid else "-"] *)
Definition pid_cell (pid : pyval) : pyval :=
  if truthy pid then pid else PStr "-".

(** The body of the loop of [index], on the state and rows so far. *)
Definition index_body (f : string) (acc : pyval * list row) : M (pyval * list row) :=
  let '(state, scripts_data) := acc in
  let* pid := lift (py_get state f) in
  let* '(status, cpu, mem, state) :=
    (if truthy pid then
       let* '(status, cpu, mem) := get_process_info pid in
       if String.eqb status "Stopped" then
         let* inside := lift (py_contains f state) in
         if (inside : bool) then
           let* state' := lift (py_delitem state f) in
           ret (status, cpu, mem, state')
         else ret (status, cpu, mem, state)
       else ret (status, cpu, mem, state)
     else ret ("Stopped", PInt 0, PInt 0, state)) in
  ret (state, (scripts_data ++ [Row f status (pid_cell pid) cpu mem])%list).

(** [for f in files: body] *)
Fixpoint for_each {A S} (body : A -> S -> M S) (l : list A) (s : S) : M S :=
  match l with
  | [] => ret s
  | a :: l' => let* s' := body a s in for_each body l' s'
  end.

Definition index : M response :=
  let* state := load_state in
  let* files := list_scripts in
  let* '(state, scripts_data) := for_each index_body files (state, []) in
  save_state state >>
  let* k := get_kernel in
  ret (Rendered scripts_data (disk_percent k) (sys_cpu_percent k) None None).

(** ** Files *)

Definition SCRIPTS_DIR : string := "scripts".
Definition LOGS_DIR : string := "logs".

(** [os.path.join(dir, name)]; route parameters hold no slash. *)
Definition path_join (dir name : string) : string := dir +:+ "/" +:+ name.

(** [f"{name}.log"] *)
Definition log_name (name : string) : string := name +:+ ".log".

Definition script_exists (name : string) : M bool :=
  fun w => (inr (existsb (String.eqb name) (scripts_dir w)), w).
Definition log_exists (name : string) : M bool :=
  fun w => (inr (bool_decide (is_Some (logs_dir w !! log_name name))), w).

(** [os.remove(script_path)] *)
Definition remove_script (name : string) : M unit :=
  emit (EvRemove (path_join SCRIPTS_DIR name)) >>
  fun w => (inr tt, World (kernel w) (pid_file w)
                          (List.filter (fun f => negb (String.eqb name f)) (scripts_dir w))
                          (logs_dir w) (trace w)).

(** [os.remove(log_path)] *)
Definition remove_log (name : string) : M unit :=
  emit (EvRemove (path_join LOGS_DIR (log_name name))) >>
  fun w => (inr tt, World (kernel w) (pid_file w) (scripts_dir w)
                          (delete (log_name name) (logs_dir w)) (trace w)).

(** [open(log_path, "a")]: the file is created when it is not there. *)
Definition open_append (name : string) : M unit :=
  emit (EvOpenAppend (path_join LOGS_DIR (log_name name))) >>
  fun w => (inr tt, World (kernel w) (pid_file w) (scripts_dir w)
                          (match logs_dir w !! log_name name with
                           | Some _ => logs_dir w
                           | None => <[log_name name := []]> (logs_dir w)
                           end) (trace w)).

(** [f.readlines()[-100:]] joined, or the default text. *)
Definition last_lines (n : nat) (lines : list string) : list string :=
  skipn (List.length lines - n) lines.

(** What may follow a first byte of a UTF-8 sequence: the ranges of the
    bytes to come, or [None] when no sequence starts with it. *)
Definition utf8_lead (b : N) : option (list (N * N)) :=
  let cont := (128, 191)%N in
  if (b <? 128)%N then Some []
  else if (b <? 194)%N then None
  else if (b <=? 223)%N then Some [cont]
  else if (b =? 224)%N then Some [(160, 191)%N; cont]
  else if (b =? 237)%N then Some [(128, 159)%N; cont]
  else if (b <=? 239)%N then Some [cont; cont]
  else if (b =? 240)%N then Some [(144, 191)%N; cont; cont]
  else if (b <=? 243)%N then Some [cont; cont; cont]
  else if (b =? 244)%N then Some [(128, 143)%N; cont; cont]
  else None.

(** Whether bytes decode as UTF-8, [pending] being the ranges of the bytes
    that must come first. *)
Fixpoint utf8_valid_from (pending : list (N * N)) (s : string) : bool :=
  match s with
  | EmptyString => match pending with [] => true | _ => false end
  | String c rest =>
      let b := N_of_ascii c in
      match pending with
      | (lo, hi) :: more =>
          (lo <=? b)%N && (b <=? hi)%N && utf8_valid_from more rest
      | [] =>
          match utf8_lead b with
          | Some pending' => utf8_valid_from pending' rest
          | None => false
          end
      end
  end.
Definition utf8_valid (s : string) : bool := utf8_valid_from [] s.

(** The log pane: [os.path.exists], then [open(log_path, "r")] and
    [f.readlines()], which decodes the whole file and raises when its bytes
    are no text. *)
Definition read_log (name : string) : M string :=
  fun w => (match logs_dir w !! log_name name with
            | Some lines =>
                if utf8_valid (String.concat "" lines)
                then inr (String.concat "" (last_lines 100 lines))
                else inl UnicodeDecodeError
            | None => inr "No logs yet."
            end, w).

(** ** System calls *)

(** [os.kill(pid, sig)]: the pid must be an [int]. *)
Definition os_kill (pid : pyval) (sig : signal) : M unit :=
  match as_int pid with
  | None => raise TypeError
  | Some z =>
      emit (EvKill z sig) >>
      let* k := get_kernel in
      let '(k', r) := kill k z sig in
      put_kernel k' >>
      match r with
      | Some e => raise e
      | None => ret tt
      end
  end.

(** [time.sleep(secs)] *)
Definition time_sleep (secs : Z) : M unit :=
  emit (EvSleep secs) >>
  let* k := get_kernel in
  put_kernel (sleep k secs).

(** [psutil.pid_exists(pid)]: a negative pid never exists. *)
Definition psutil_pid_exists (pid : pyval) : M bool :=
  match as_int pid with
  | None => raise TypeError
  | Some z =>
      emit (EvPidExists z) >>
      if z <? 0 then ret false
      else let* k := get_kernel in ret (pid_alive k z)
  end.

(** [subprocess.Popen(argv, stdout=log_file, stderr=log_file,
    start_new_session=True).pid] *)
Definition Popen (argv : list string) : M positive :=
  emit (EvPopen argv) >>
  let* k := get_kernel in
  let '(k', r) := popen k argv in
  put_kernel k' >>
  lift r.

(** ** The lifecycle controller *)

(** The test of [start]:
    [script_name in state and get_process_info(state[script_name])[0] == "Running"] *)
Definition is_running (state : pyval) (script_name : string) : M bool :=
  let* inside := lift (py_contains script_name state) in
  if (inside : bool) then
    let* pid := lift (py_getitem state script_name) in
    let* '(status, _, _) := get_process_info pid in
    ret (String.eqb status "Running")
  else ret false.

Definition start (script_name : string) : M response :=
  let* state := load_state in
  let script_path := path_join SCRIPTS_DIR script_name in
  let* running := is_running state script_name in
  if (running : bool) then ret (Redirect "/")
  else
    open_append script_name >>
    let* proc_pid := Popen ["python3"; "-u"; script_path] in
    let* state := lift (py_setitem state script_name (PInt (Z.pos proc_pid))) in
    save_state state >>
    ret (Redirect "/").

(** The [try] block of [stop]. *)
Definition terminate (pid : pyval) : M unit :=
  os_kill pid SIGTERM >>
  time_sleep 1 >>
  let* alive := psutil_pid_exists pid in
  if (alive : bool) then os_kill pid SIGKILL else ret tt.

Definition stop (script_name : string) : M response :=
  let* state := load_state in
  let* pid := lift (py_get state script_name) in
  (if truthy pid then
     try_except (terminate pid) any_exception (ret tt) >>
     let* state := lift (py_delitem state script_name) in
     save_state state
   else ret tt) >>
  ret (Redirect "/").

Definition delete_script (script_name : string) : M response :=
  stop script_name >>
  let* has_script := script_exists script_name in
  (if (has_script : bool) then remove_script script_name else ret tt) >>
  let* has_log := log_exists script_name in
  (if (has_log : bool) then remove_log script_name else ret tt) >>
  let* state := load_state in
  let* inside := lift (py_contains script_name state) in
  (if (inside : bool) then
     let* state := lift (py_delitem state script_name) in
     save_state state
   else ret tt) >>
  ret (Redirect "/").

(** The body of the loop of [logs]: the same table, nothing deleted. *)
Definition logs_body (state : pyval) (f : string) (scripts_data : list row)
  : M (list row) :=
  let* pid := lift (py_get state f) in
  let* '(status, cpu, mem) :=
    (if truthy pid then get_process_info pid
     else ret ("Stopped", PInt 0, PInt 0)) in
  ret (scripts_data ++ [Row f status (pid_cell pid) cpu mem])%list.

Definition logs (log_target : string) : M response :=
  let '(log_file, display_name) :=
    if String.eqb log_target "pip_install"
    then ("pip_install", "PIP INSTALL LOGS")
    else (log_target, log_target) in
  let* content := read_log log_file in
  let* state := load_state in
  let* files := list_scripts in
  let* scripts_data := for_each (logs_body state) files [] in
  let* k := get_kernel in
  ret (Rendered scripts_data (disk_percent k) (sys_cpu_percent k)
                (Some display_name) (Some content)).

End Handlers.

(** ** A concrete kernel

    A process table small enough to run the handlers on: a process may be a
    zombie, may belong to another user (signals are refused), and may or may
    not exit on SIGTERM; a process that got SIGTERM and heeds it dies during
    the next sleep, SIGKILL kills at once.  A process that dies leaves the
    table, unless it is a child of the supervisor: the supervisor never waits
    for its children, so a dead child stays as a zombie. *)

Module Machine.

Record proc := Proc {
  zombie : bool;
  foreign : bool;
  heeds_term : bool;
  cpu : Q;
  rss : Z;
  child : bool
}.

Record machine := Make {
  self : Z;
  procs : gmap Z proc;
  doomed : list Z;
  next_pid : positive;
  python3 : bool
}.

Definition attach (m : machine) (pid : Z) : option exn :=
  match procs m !! pid with
  | Some _ => None
  | None => Some NoSuchProcess
  end.

Definition status (m : machine) (pid : Z) : result string :=
  match procs m !! pid with
  | Some p => inr (if zombie p then "zombie" else "sleeping")
  | None => inl NoSuchProcess
  end.

Definition cpu_of (m : machine) (pid : Z) : result Q :=
  match procs m !! pid with
  | Some p => if zombie p then inl ZombieProcess else inr (cpu p)
  | None => inl NoSuchProcess
  end.

Definition rss_of (m : machine) (pid : Z) : result Z :=
  match procs m !! pid with
  | Some p => if zombie p then inl ZombieProcess else inr (rss p)
  | None => inl NoSuchProcess
  end.

Definition alive (m : machine) (pid : Z) : bool :=
  bool_decide (is_Some (procs m !! pid)).

(** The table once process [pid], which is [p], has died. *)
Definition bury (pid : Z) (p : proc) (t : gmap Z proc) : gmap Z proc :=
  if child p
  then <[pid := Proc true (foreign p) (heeds_term p) (cpu p) (rss p) true]> t
  else delete pid t.

Definition signal_to (m : machine) (pid : Z) (sig : signal) : machine * option exn :=
  match procs m !! pid with
  | None => (m, Some ProcessLookupError)
  | Some p =>
      if foreign p then (m, Some PermissionError)
      else if zombie p then (m, None)
      else match sig with
           | SIGKILL =>
               (Make (self m) (bury pid p (procs m)) (doomed m) (next_pid m)
                     (python3 m),
                None)
           | SIGTERM =>
               if heeds_term p
               then (Make (self m) (procs m) (pid :: doomed m) (next_pid m) (python3 m),
                     None)
               else (m, None)
           end
  end.

Definition nap (m : machine) (secs : Z) : machine :=
  Make (self m)
       (fold_right (fun pid t => match t !! pid with
                                 | Some p => bury pid p t
                                 | None => t
                                 end) (procs m) (doomed m))
       [] (next_pid m) (python3 m).

Definition spawn (m : machine) (argv : list string) : machine * result positive :=
  if python3 m
  then (Make (self m)
             (<[Z.pos (next_pid m) := Proc false false true 0%Q 0 true]> (procs m))
             (doomed m) (Pos.succ (next_pid m)) (python3 m),
        inr (next_pid m))
  else (m, inl FileNotFoundError).

#[global] Instance machine_kernel : Kernel machine := {
  getpid := self;
  proc_attach := attach;
  proc_status := status;
  proc_cpu_percent := cpu_of;
  proc_rss := rss_of;
  pid_alive := alive;
  kill := signal_to;
  sleep := nap;
  popen := spawn;
  disk_percent := fun _ => 0%Q;
  sys_cpu_percent := fun _ => 0%Q
}.

(** The supervisor, pid 100, and nothing else. *)
Definition idle : machine :=
  Make 100 {[ 100 := Proc false false true 0%Q 0 false ]} [] 4822%positive true.

(** [idle] with one more process. *)
Definition with_proc (pid : Z) (p : proc) (m : machine) : machine :=
  Make (self m) (<[pid := p]> (procs m)) (doomed m) (next_pid m) (python3 m).

(** A world over a machine: a registry document, a scripts directory, no
    log, nothing done yet. *)
Definition boot (m : machine) (f : pid_file_state) (scripts : list string)
  : world machine :=
  World m f scripts ∅ [].

(** The world of one script, [job.py], whose slot holds [v]. *)
Definition job (m : machine) (v : pyval) : world machine :=
  boot m (Document (PDict {["job.py" := v]})) ["job.py"].

(** A live process of the supervisor's user that ignores SIGTERM, and one
    of another user. *)
Definition stubborn : proc := Proc false false false 0%Q 0 false.
Definition alien : proc := Proc false true false 0%Q 0 false.
Definition defunct : proc := Proc true false false 0%Q 0 false.
Definition worker : proc := Proc false false true (5 # 2)%Q 3145728 false.

(** [idle] without a [python3] to run. *)
Definition no_python : machine :=
  Make 100 {[ 100 := Proc false false true 0%Q 0 false ]} [] 4822%positive false.

End Machine.

(** ** Derived notions *)

Section Notions.
Context {K : Type} `{Kernel K}.

(** [w] with further effects recorded and nothing else changed. *)
Definition logged (w : world K) (evs : list event) : world K :=
  World (kernel w) (pid_file w) (scripts_dir w) (logs_dir w) (trace w ++ evs)%list.

(** What [get_process_info] answers on a kernel. *)
Definition probe (k : K) (pid : pyval) : result (string * pyval * pyval) :=
  fst (get_process_info pid (World k Absent [] ∅ [])).

(** The registry as the handlers see it, and the slot of a script in it. *)
Definition registry (w : world K) : result pyval := fst (load_state w).
Definition entry (name : string) (w : world K) : option pyval :=
  match registry w with
  | inr (PDict d) => d !! name
  | _ => None
  end.

(** The scripts a page lists. *)
Definition listed (w : world K) : list string :=
  sorted (List.filter (fun f => endswith f ".py") (scripts_dir w)).

(** A slot that [index] clears: a truthy pid that probes as stopped. *)
Definition stale (k : K) (d : gmap string pyval) (f : string) : bool :=
  match d !! f with
  | Some pid =>
      truthy pid &&
      match probe k pid with
      | inr (status, _, _) => String.eqb status "Stopped"
      | inl _ => false
      end
  | None => false
  end.

(** The registry after [index] went over [files]. *)
Definition pruned (k : K) (d : gmap string pyval) (files : list string)
  : gmap string pyval :=
  filter (fun kv => ¬ (kv.1 ∈ files ∧ stale k d kv.1 = true)) d.

(** The probes of [files] all answer (no exception other than
    [NoSuchProcess] comes out of [psutil]). *)
Definition answers (k : K) (d : gmap string pyval) (files : list string) : Prop :=
  forall f pid, f ∈ files -> d !! f = Some pid -> truthy pid = true ->
    exists r, probe k pid = inr r.

(** [answers], as a test. *)
Definition answersb (k : K) (d : gmap string pyval) (files : list string) : bool :=
  forallb (fun f =>
             match d !! f with
             | Some pid =>
                 if truthy pid
                 then match probe k pid with inr _ => true | inl _ => false end
                 else true
             | None => true
             end) files.

(** The row of a script whose slot is not stale. *)
Definition row_of (k : K) (d : gmap string pyval) (f : string) : row :=
  let pid := default PNone (d !! f) in
  match (if truthy pid then probe k pid else inr ("Stopped", PInt 0, PInt 0)) with
  | inr (status, cpu, mem) => Row f status (pid_cell pid) cpu mem
  | inl _ => Row f "" PNone PNone PNone
  end.

(** [psutil.pid_exists(z)] after a SIGTERM that was delivered and the grace
    period. *)
Definition exists_after_grace (k : K) (z : Z) : bool :=
  if z <? 0 then false else pid_alive (sleep (fst (kill k z SIGTERM)) 1) z.

(** The effects of the [try] block of [stop] on the integer pid [z]. *)
Definition stop_signals (k : K) (z : Z) : list event :=
  match snd (kill k z SIGTERM) with
  | Some _ => [EvKill z SIGTERM]
  | None =>
      [EvKill z SIGTERM; EvSleep 1; EvPidExists z] ++
      (if exists_after_grace k z then [EvKill z SIGKILL] else [])
  end.

(** The effects of the [try] block of [stop] on a stored value: nothing
    reaches the OS when the value is not an integer. *)
Definition attempt (k : K) (pid : pyval) : list event :=
  match as_int pid with
  | Some z => stop_signals k z
  | None => []
  end.

(** The value of the test of [start] on a kernel, and the probe it makes. *)
Definition running_guard (k : K) (state : pyval) (name : string) : result bool :=
  match py_contains name state with
  | inl e => inl e
  | inr false => inr false
  | inr true =>
      match py_getitem state name with
      | inl e => inl e
      | inr pid =>
          match probe k pid with
          | inl e => inl e
          | inr (status, _, _) => inr (String.eqb status "Running")
          end
      end
  end.
Definition guard_probe (state : pyval) (name : string) : list event :=
  match py_contains name state, py_getitem state name with
  | inr true, inr pid => [EvProcess pid]
  | _, _ => []
  end.

(** The logs directory once the log of a script is open for append. *)
Definition opened (name : string) (ld : gmap string (list string))
  : gmap string (list string) :=
  match ld !! log_name name with
  | Some _ => ld
  | None => <[log_name name := []]> ld
  end.

(** The command line of a script. *)
Definition argv_of (name : string) : list string :=
  ["python3"; "-u"; path_join SCRIPTS_DIR name].

(** What a row of [index] for a script may be, in terms of the registry [d]
    the pass started from: the row of its slot, or, once a stale slot has
    been cleared, the row of an empty slot. *)
Definition reported (k : K) (d : gmap string pyval) (r : row) : Prop :=
  r = row_of k d (r_name r) \/
  (stale k d (r_name r) = true /\
   r = Row (r_name r) "Stopped" (PStr "-") (PInt 0) (PInt 0)).

(** The probes a pass over [files] may record. *)
Definition probed (d : gmap string pyval) (files : list string) (e : event) : Prop :=
  exists f pid, f ∈ files /\ d !! f = Some pid /\ truthy pid = true /\
                e = EvProcess pid.

(** An effect that is a probe. *)
Definition is_probe (e : event) : Prop := exists pid, e = EvProcess pid.

(** [w'] is [w] with probes recorded and nothing else changed. *)
Definition probes_only (w w' : world K) : Prop :=
  exists evs, w' = logged w evs /\ Forall is_probe evs.

(** [w'] has the kernel and the directories of [w]. *)
Definition same_system (w w' : world K) : Prop :=
  kernel w' = kernel w /\ scripts_dir w' = scripts_dir w /\
  logs_dir w' = logs_dir w.

(** A computation whose final world is always related to its initial one. *)
Definition frames {A} (R : world K -> world K -> Prop) (m : M A) : Prop :=
  forall w, R w (snd (m w)).

End Notions.

(** * Properties *)

Section Properties.
Context {K : Type} `{Kernel K}.

Ltac run :=
  unfold bind, ret, raise, lift, try_except, emit, get_kernel, put_kernel,
    any_exception, logged in *; simpl in *.

Ltac probe_cases :=
  repeat (match goal with
          | |- context [if ?b then _ else _] => destruct b eqn:?
          | |- context [match proc_attach ?k ?z with _ => _ end] =>
              destruct (proc_attach k z) eqn:?
          | |- context [match proc_status ?k ?z with _ => _ end] =>
              destruct (proc_status k z) eqn:?
          | |- context [match proc_cpu_percent ?k ?z with _ => _ end] =>
              destruct (proc_cpu_percent k z) eqn:?
          | |- context [match proc_rss ?k ?z with _ => _ end] =>
              destruct (proc_rss k z) eqn:?
          end; simpl).

Lemma logged_nil (w : world K) : logged w [] = w.
Proof. destruct w; unfold logged; simpl. by rewrite app_nil_r. Qed.

Lemma logged_logged (w : world K) evs evs' :
  logged (logged w evs) evs' = logged w (evs ++ evs').
Proof. unfold logged; simpl. by rewrite app_assoc. Qed.

(** [get_process_info] reads the kernel and records one probe. *)
Lemma get_process_info_run (pid : pyval) (w : world K) :
  get_process_info pid w = (probe (kernel w) pid, logged w [EvProcess pid]).
Proof.
  unfold probe, get_process_info, psutil_Process. destruct w as [k pf sd ld tr].
  run.
  destruct pid as [ | b | z | q | s | l | d]; simpl; probe_cases; reflexivity.
Qed.


Lemma load_state_run (w : world K) :
  load_state w =
  (inr (match pid_file w with Document v => v | _ => PDict ∅ end), w).
Proof.
  destruct w as [k pf sd ld tr].
  unfold load_state, pid_file_exists, read_pid_file. run.
  by destruct pf.
Qed.

Lemma save_state_run (state : pyval) (w : world K) :
  save_state state w =
  (inr tt, World (kernel w) (Document state) (scripts_dir w) (logs_dir w)
                 (trace w ++ [EvSave state])).
Proof. reflexivity. Qed.

(** A probe that says "Stopped" carries no metrics. *)
Lemma probe_stopped (k : K) (pid : pyval) status cpu mem :
  probe k pid = inr (status, cpu, mem) -> String.eqb status "Stopped" = true ->
  (status, cpu, mem) = ("Stopped", PInt 0, PInt 0).
Proof.
  intros Hp Hs. apply String.eqb_eq in Hs. subst status.
  revert Hp. unfold probe, get_process_info, psutil_Process. run.
  destruct pid as [ | b | z | q | s | l | d]; simpl; probe_cases;
    intros; simplify_eq; reflexivity.
Qed.


(** One turn of the loop of [index] on a registry that is a dict. *)
Lemma index_body_run (f : string) (d : gmap string pyval) rows (w : world K) :
  index_body f (PDict d, rows) w =
  let pid := default PNone (d !! f) in
  if truthy pid then
    match probe (kernel w) pid with
    | inl e => (inl e, logged w [EvProcess pid])
    | inr (status, cpu, mem) =>
        (inr (PDict (if String.eqb status "Stopped" then delete f d else d),
              rows ++ [Row f status (pid_cell pid) cpu mem]),
         logged w [EvProcess pid])
    end
  else (inr (PDict d, rows ++ [Row f "Stopped" (pid_cell pid) (PInt 0) (PInt 0)]), w).
Proof.
  unfold index_body, bind at 1. unfold lift, py_get. simpl.
  destruct (d !! f) as [pid|] eqn:Hd; simpl; [|reflexivity].
  destruct (truthy pid) eqn:Ht; [|reflexivity].
  unfold bind. rewrite get_process_info_run.
  destruct (probe (kernel w) pid) as [e|[[status cpu] mem]]; [reflexivity|].
  destruct (String.eqb status "Stopped"); [|reflexivity].
  reflexivity.
Qed.


(** *** The registry after a pass of [index] *)

Lemma pruned_lookup (k : K) (d : gmap string pyval) files (g : string) :
  pruned k d files !! g =
  if decide (g ∈ files /\ stale k d g = true) then None else d !! g.
Proof.
  unfold pruned. rewrite map_lookup_filter.
  destruct (d !! g) as [v|] eqn:Hg; simpl.
  - case_guard as Hc; simpl in *; case_decide; try reflexivity; tauto.
  - by case_decide.
Qed.

Lemma stale_delete_ne (k : K) (d : gmap string pyval) (f g : string) :
  f ≠ g -> stale k (delete f d) g = stale k d g.
Proof. intros Hne. unfold stale. by rewrite lookup_delete_ne. Qed.

Lemma stale_delete_eq (k : K) (d : gmap string pyval) (f : string) :
  stale k (delete f d) f = false.
Proof. unfold stale. by rewrite lookup_delete_eq. Qed.

Lemma row_of_delete_ne (k : K) (d : gmap string pyval) (f g : string) :
  f ≠ g -> row_of k (delete f d) g = row_of k d g.
Proof. intros Hne. unfold row_of. by rewrite lookup_delete_ne. Qed.

Lemma row_of_delete_eq (k : K) (d : gmap string pyval) (f : string) :
  row_of k (delete f d) f = Row f "Stopped" (PStr "-") (PInt 0) (PInt 0).
Proof. unfold row_of. by rewrite lookup_delete_eq. Qed.

Lemma pruned_nil (k : K) (d : gmap string pyval) : pruned k d [] = d.
Proof.
  apply map_eq. intros g. rewrite pruned_lookup.
  case_decide as Hc; [|reflexivity]. destruct Hc as [Hin _]. inversion Hin.
Qed.

(** Going over one more file that is not stale changes nothing. *)
Lemma pruned_cons_keep (k : K) (d : gmap string pyval) f files :
  stale k d f = false -> pruned k d (f :: files) = pruned k d files.
Proof.
  intros Hs. apply map_eq. intros g. rewrite !pruned_lookup.
  destruct (decide (g ∈ f :: files /\ stale k d g = true)) as [[Hin Hst]|Hn];
    destruct (decide (g ∈ files /\ stale k d g = true)) as [[Hin' Hst']|Hn'];
    try reflexivity; exfalso.
  - apply Hn'. split; [|done].
    apply elem_of_cons in Hin as [->|Hin]; [congruence|done].
  - apply Hn. split; [|done]. apply elem_of_cons. by right.
Qed.

(** Going over a stale file clears its slot. *)
Lemma pruned_cons_clear (k : K) (d : gmap string pyval) f files :
  stale k d f = true -> pruned k d (f :: files) = pruned k (delete f d) files.
Proof.
  intros Hs. apply map_eq. intros g. rewrite !pruned_lookup.
  destruct (decide (f = g)) as [<-|Hne].
  - rewrite stale_delete_eq, lookup_delete_eq.
    destruct (decide (f ∈ f :: files /\ stale k d f = true)) as [_|Hn].
    + by case_decide.
    + exfalso. apply Hn. split; [|done]. apply elem_of_cons. by left.
  - rewrite stale_delete_ne, lookup_delete_ne by done.
    destruct (decide (g ∈ f :: files /\ stale k d g = true)) as [[Hin Hst]|Hn];
      destruct (decide (g ∈ files /\ stale k d g = true)) as [[Hin' Hst']|Hn'];
      try reflexivity; exfalso.
    + apply Hn'. split; [|done].
      apply elem_of_cons in Hin as [->|Hin]; [congruence|done].
    + apply Hn. split; [|done]. apply elem_of_cons. by right.
Qed.


Lemma reported_delete (k : K) (d : gmap string pyval) (f : string) (r : row) :
  stale k d f = true -> reported k (delete f d) r -> reported k d r.
Proof.
  intros Hs. unfold reported. destruct (decide (f = r_name r)) as [Heq|Hne].
  - rewrite <- Heq. rewrite stale_delete_eq, row_of_delete_eq.
    intros [Hr|[Hst _]]; [|discriminate]. right. by split.
  - rewrite stale_delete_ne, row_of_delete_ne by done. tauto.
Qed.

Lemma probed_delete (d : gmap string pyval) (f : string) files (e : event) :
  probed (delete f d) files e -> probed d (f :: files) e.
Proof.
  intros (g & pid & Hin & Hd & Ht & ->). exists g, pid.
  split; [by apply elem_of_cons; right|]. split; [|done].
  destruct (decide (f = g)) as [->|Hne].
  - by rewrite lookup_delete_eq in Hd.
  - by rewrite lookup_delete_ne in Hd.
Qed.

Lemma probed_cons (d : gmap string pyval) (f : string) files (e : event) :
  probed d files e -> probed d (f :: files) e.
Proof.
  intros (g & pid & Hin & Hd & Ht & ->). exists g, pid.
  split; [by apply elem_of_cons; right|done].
Qed.

Lemma answers_tail (k : K) (d : gmap string pyval) f files :
  answers k d (f :: files) -> answers k d files.
Proof.
  intros Ha g pid Hin. apply Ha. apply elem_of_cons. by right.
Qed.

Lemma answers_delete (k : K) (d : gmap string pyval) f files :
  answers k d (f :: files) -> answers k (delete f d) files.
Proof.
  intros Ha g pid Hin Hd. apply (Ha g pid); [by apply elem_of_cons; right|].
  destruct (decide (f = g)) as [->|Hne].
  - by rewrite lookup_delete_eq in Hd.
  - by rewrite lookup_delete_ne in Hd.
Qed.

Lemma for_each_cons {A S} (body : A -> S -> M S) (a : A) (l : list A) (s : S)
    (w : world K) :
  for_each body (a :: l) s w =
  match body a s w with
  | (inl e, w') => (inl e, w')
  | (inr s', w') => for_each body l s' w'
  end.
Proof. reflexivity. Qed.

(** The loop of [index], on a registry that is a dict and probes that
    answer: it ends, the registry comes out pruned, there is one row per
    file, and nothing but probes of truthy slots was done. *)
Lemma index_loop (files : list string) :
  forall (d : gmap string pyval) rows (w : world K),
  answers (kernel w) d files ->
  exists rows' evs,
    for_each index_body files (PDict d, rows) w =
      (inr (PDict (pruned (kernel w) d files), rows ++ rows'), logged w evs) /\
    map r_name rows' = files /\
    Forall (reported (kernel w) d) rows' /\
    Forall (probed d files) evs.
Proof.
  induction files as [|f files IH]; intros d rows w Ha.
  - exists [], []. rewrite pruned_nil, logged_nil, app_nil_r. by repeat split.
  - rewrite for_each_cons, index_body_run. cbv zeta.
    destruct (d !! f) as [pid|] eqn:Hd; simpl.
    2: { change (pid_cell PNone) with (PStr "-").
         assert (Hs : stale (kernel w) d f = false) by (unfold stale; by rewrite Hd).
         destruct (IH d (rows ++ [Row f "Stopped" (PStr "-") (PInt 0) (PInt 0)]) w)
           as (rows' & evs & Hrun & Hn & Hr & He); [by eapply answers_tail|].
         eexists (_ :: rows'), evs. rewrite Hrun, pruned_cons_keep by done.
         rewrite <- app_assoc. simpl. repeat split.
         - by rewrite Hn.
         - constructor; [|done]. left. unfold row_of. simpl. by rewrite Hd.
         - eapply Forall_impl; [exact He|]. intros e. apply probed_cons. }
    destruct (truthy pid) eqn:Ht.
    2: { assert (Hs : stale (kernel w) d f = false)
           by (unfold stale; by rewrite Hd, Ht).
         destruct (IH d (rows ++ [Row f "Stopped" (pid_cell pid) (PInt 0) (PInt 0)]) w)
           as (rows' & evs & Hrun & Hn & Hr & He); [by eapply answers_tail|].
         eexists (_ :: rows'), evs. rewrite Hrun, pruned_cons_keep by done.
         rewrite <- app_assoc. simpl. repeat split.
         - by rewrite Hn.
         - constructor; [|done]. left. unfold row_of. simpl. by rewrite Hd; simpl; rewrite Ht.
         - eapply Forall_impl; [exact He|]. intros e. apply probed_cons. }
    destruct (Ha f pid) as [[[status cpu] mem] Hp]; [by apply elem_of_cons; left|done..|].
    rewrite Hp.
    assert (Hrow : Row f status (pid_cell pid) cpu mem = row_of (kernel w) d f).
    { unfold row_of. rewrite Hd. simpl. by rewrite Ht, Hp. }
    assert (Hev : probed d (f :: files) (EvProcess pid)).
    { exists f, pid. split; [by apply elem_of_cons; left|done]. }
    destruct (String.eqb status "Stopped") eqn:Hst.
    + assert (Hs : stale (kernel w) d f = true)
        by (unfold stale; by rewrite Hd, Ht, Hp).
      destruct (IH (delete f d) (rows ++ [Row f status (pid_cell pid) cpu mem])
                   (logged w [EvProcess pid]))
        as (rows' & evs & Hrun & Hn & Hr & He); [by eapply answers_delete|].
      eexists (_ :: rows'), (EvProcess pid :: evs).
      rewrite Hrun, logged_logged. simpl. rewrite pruned_cons_clear by done.
      rewrite <- app_assoc. simpl. repeat split.
      * by rewrite Hn.
      * constructor; [by left|].
        eapply Forall_impl; [exact Hr|]. intros r. by apply reported_delete.
      * constructor; [done|].
        eapply Forall_impl; [exact He|]. intros e. apply probed_delete.
    + assert (Hs : stale (kernel w) d f = false)
        by (unfold stale; by rewrite Hd, Ht, Hp).
      destruct (IH d (rows ++ [Row f status (pid_cell pid) cpu mem])
                   (logged w [EvProcess pid]))
        as (rows' & evs & Hrun & Hn & Hr & He); [by eapply answers_tail|].
      eexists (_ :: rows'), (EvProcess pid :: evs).
      rewrite Hrun, logged_logged. simpl. rewrite pruned_cons_keep by done.
      rewrite <- app_assoc. simpl. repeat split.
      * by rewrite Hn.
      * constructor; [by left|done].
      * constructor; [done|].
        eapply Forall_impl; [exact He|]. intros e. apply probed_cons.
Qed.


Lemma registry_dict (w : world K) (d : gmap string pyval) :
  registry w = inr (PDict d) -> load_state w = (inr (PDict d), w).
Proof. unfold registry. rewrite load_state_run. simpl. by intros ->. Qed.

(** [index] on a registry that is a dict and probes that answer. *)
Lemma index_run (w : world K) (d : gmap string pyval) :
  registry w = inr (PDict d) ->
  answers (kernel w) d (listed w) ->
  exists rows evs,
    index w =
      (inr (Rendered rows (disk_percent (kernel w)) (sys_cpu_percent (kernel w))
                     None None),
       World (kernel w) (Document (PDict (pruned (kernel w) d (listed w))))
             (scripts_dir w) (logs_dir w)
             (trace w ++ evs ++ [EvSave (PDict (pruned (kernel w) d (listed w)))])) /\
    map r_name rows = listed w /\
    Forall (reported (kernel w) d) rows /\
    Forall (probed d (listed w)) evs.
Proof.
  intros Hreg Ha.
  destruct (index_loop (listed w) d [] w Ha) as (rows & evs & Hrun & Hn & Hr & He).
  exists rows, evs. split; [|done].
  unfold index. unfold bind at 1. rewrite (registry_dict _ _ Hreg).
  unfold bind at 1. unfold list_scripts. fold (listed w).
  unfold bind at 1. rewrite Hrun. simpl.
  unfold bind at 1. rewrite save_state_run. simpl.
  unfold bind, get_kernel, ret. simpl. by rewrite app_assoc.
Qed.

(** One turn of the loop of [logs]. *)
Lemma logs_body_run (f : string) (d : gmap string pyval) rows (w : world K) :
  logs_body (PDict d) f rows w =
  let pid := default PNone (d !! f) in
  if truthy pid then
    match probe (kernel w) pid with
    | inl e => (inl e, logged w [EvProcess pid])
    | inr (status, cpu, mem) =>
        (inr (rows ++ [Row f status (pid_cell pid) cpu mem]), logged w [EvProcess pid])
    end
  else (inr (rows ++ [Row f "Stopped" (pid_cell pid) (PInt 0) (PInt 0)]), w).
Proof.
  unfold logs_body, bind at 1. unfold lift, py_get. simpl.
  destruct (truthy (default PNone (d !! f))) eqn:Ht; [|reflexivity].
  unfold bind. rewrite get_process_info_run.
  by destruct (probe (kernel w) (default PNone (d !! f))) as [e|[[status cpu] mem]].
Qed.

(** The loop of [logs]: one row per file, the row of its slot. *)
Lemma logs_loop (files : list string) :
  forall (d : gmap string pyval) rows (w : world K),
  answers (kernel w) d files ->
  exists evs,
    for_each (logs_body (PDict d)) files rows w =
      (inr (rows ++ map (row_of (kernel w) d) files), logged w evs) /\
    Forall (probed d files) evs.
Proof.
  induction files as [|f files IH]; intros d rows w Ha.
  - exists []. by rewrite logged_nil, app_nil_r.
  - rewrite for_each_cons, logs_body_run. cbv zeta.
    assert (Hrow : forall status cpu mem,
      (if truthy (default PNone (d !! f)) then probe (kernel w) (default PNone (d !! f))
       else inr ("Stopped", PInt 0, PInt 0)) = inr (status, cpu, mem) ->
      Row f status (pid_cell (default PNone (d !! f))) cpu mem = row_of (kernel w) d f).
    { intros status cpu mem Hp. unfold row_of. simpl. by rewrite Hp. }
    destruct (truthy (default PNone (d !! f))) eqn:Ht.
    + destruct (d !! f) as [pid|] eqn:Hd; [|discriminate]. simpl in *.
      destruct (Ha f pid) as [[[status cpu] mem] Hp];
        [by apply elem_of_cons; left|done..|].
      rewrite Hp.
      destruct (IH d (rows ++ [Row f status (pid_cell pid) cpu mem])
                   (logged w [EvProcess pid])) as (evs & Hrun & He);
        [by eapply answers_tail|].
      exists (EvProcess pid :: evs). rewrite Hrun, logged_logged. simpl.
      rewrite <- app_assoc. simpl. rewrite (Hrow _ _ _ Hp). split; [done|].
      constructor.
      * exists f, pid. split; [by apply elem_of_cons; left|done].
      * eapply Forall_impl; [exact He|]. intros e. apply probed_cons.
    + destruct (IH d (rows ++ [Row f "Stopped" (pid_cell (default PNone (d !! f)))
                                   (PInt 0) (PInt 0)]) w) as (evs & Hrun & He);
        [by eapply answers_tail|].
      exists evs. rewrite Hrun. rewrite <- app_assoc. simpl.
      rewrite (Hrow _ _ _ eq_refl). split; [done|].
      eapply Forall_impl; [exact He|]. intros e. apply probed_cons.
Qed.

Lemma read_log_run (name : string) (w : world K) :
  read_log name w = (fst (read_log name w), w).
Proof. reflexivity. Qed.

(** [logs] on a registry that is a mapping and probes that answer: it
    raises what reading the log raises, before anything else is done, or
    returns its page. *)
Lemma logs_unfold (target : string) (w : world K) (d : gmap string pyval) :
  registry w = inr (PDict d) ->
  answers (kernel w) d (listed w) ->
  exists evs,
    logs target w =
      match fst (read_log target w) with
      | inl e => (inl e, w)
      | inr content =>
          (inr (Rendered (map (row_of (kernel w) d) (listed w))
                         (disk_percent (kernel w)) (sys_cpu_percent (kernel w))
                         (Some (if String.eqb target "pip_install"
                                then "PIP INSTALL LOGS" else target))
                         (Some content)),
           logged w evs)
      end /\
    Forall (probed d (listed w)) evs.
Proof.
  intros Hreg Ha.
  destruct (logs_loop (listed w) d [] w Ha) as (evs & Hrun & He).
  exists evs. split; [|done]. unfold logs.
  assert (Hfile : fst (if String.eqb target "pip_install"
                       then ("pip_install", "PIP INSTALL LOGS")
                       else (target, target)) = target).
  { destruct (String.eqb_spec target "pip_install") as [->|]; reflexivity. }
  assert (Htitle : snd (if String.eqb target "pip_install"
                        then ("pip_install", "PIP INSTALL LOGS")
                        else (target, target)) =
                   if String.eqb target "pip_install"
                   then "PIP INSTALL LOGS" else target).
  { by destruct (String.eqb target "pip_install"). }
  destruct (if String.eqb target "pip_install"
            then ("pip_install", "PIP INSTALL LOGS") else (target, target))
    as [file name]. simpl in Hfile, Htitle. subst file name.
  unfold bind at 1. rewrite read_log_run.
  destruct (fst (read_log target w)) as [e|content]; [reflexivity|].
  unfold bind at 1. rewrite (registry_dict _ _ Hreg).
  unfold bind at 1. unfold list_scripts. fold (listed w).
  unfold bind at 1. rewrite Hrun. simpl. reflexivity.
Qed.

(** [logs] when the log can be read: it leaves the world as it is, apart
    from the probes recorded. *)
Lemma logs_run (target : string) (w : world K) (d : gmap string pyval)
    (content : string) :
  registry w = inr (PDict d) ->
  answers (kernel w) d (listed w) ->
  fst (read_log target w) = inr content ->
  exists name evs,
    logs target w =
      (inr (Rendered (map (row_of (kernel w) d) (listed w))
                     (disk_percent (kernel w)) (sys_cpu_percent (kernel w))
                     (Some name) (Some content)),
       logged w evs) /\
    Forall (probed d (listed w)) evs.
Proof.
  intros Hreg Ha Hread.
  destruct (logs_unfold target w d Hreg Ha) as (evs & Hrun & He).
  rewrite Hread in Hrun. eauto.
Qed.


(** *** Stop *)

(** The guarded [try] block: whatever the kernel answers, it ends without
    an exception, touches neither the registry file nor the directories, and
    does the effects of [attempt]. *)
Lemma guarded_terminate (pid : pyval) (w : world K) :
  exists k',
    try_except (terminate pid) any_exception (ret tt) w =
    (inr tt, World k' (pid_file w) (scripts_dir w) (logs_dir w)
                   (trace w ++ attempt (kernel w) pid)).
Proof.
  destruct w as [k pf sd ld tr].
  unfold attempt, stop_signals, exists_after_grace, terminate, os_kill,
    psutil_pid_exists, time_sleep.
  destruct (as_int pid) as [z|] eqn:Hz.
  2: { exists k. run. by rewrite app_nil_r. }
  run. destruct (kill k z SIGTERM) as [k1 [e|]] eqn:Hk1; simpl.
  { by exists k1. }
  destruct (z <? 0) eqn:Hneg; simpl.
  { exists (sleep k1 1). by rewrite <- !app_assoc. }
  destruct (pid_alive (sleep k1 1) z) eqn:Hal; simpl.
  - destruct (kill (sleep k1 1) z SIGKILL) as [k3 [e|]] eqn:Hk3; simpl;
      exists k3; by rewrite <- !app_assoc.
  - exists (sleep k1 1). by rewrite <- !app_assoc.
Qed.

(** [stop] on a slot that is empty or holds a falsy value does nothing. *)
Lemma stop_noop (name : string) (w : world K) (d : gmap string pyval) :
  registry w = inr (PDict d) ->
  truthy (default PNone (d !! name)) = false ->
  stop name w = (inr (Redirect "/"), w).
Proof.
  intros Hreg Ht. unfold stop. unfold bind at 1. rewrite (registry_dict _ _ Hreg).
  unfold bind at 1. unfold lift, py_get. simpl. rewrite Ht. reflexivity.
Qed.

(** [stop] on a slot that holds a truthy value clears it and saves. *)
Lemma stop_clears (name : string) (w : world K) (d : gmap string pyval) pid :
  registry w = inr (PDict d) ->
  d !! name = Some pid -> truthy pid = true ->
  exists k',
    stop name w =
    (inr (Redirect "/"),
     World k' (Document (PDict (delete name d))) (scripts_dir w) (logs_dir w)
           (trace w ++ attempt (kernel w) pid ++ [EvSave (PDict (delete name d))])).
Proof.
  intros Hreg Hd Ht. destruct (guarded_terminate pid w) as [k' Hg]. exists k'.
  unfold stop. unfold bind at 1. rewrite (registry_dict _ _ Hreg).
  unfold bind at 1. unfold lift, py_get. simpl. rewrite Hd. simpl. rewrite Ht.
  unfold bind at 1. unfold bind at 1. rewrite Hg.
  unfold bind at 1. simpl. unfold ret. by rewrite app_assoc.
Qed.


(** ** Load *)

(** C4, as amended.  Whatever the state of the registry file, [load_state]
    returns and leaves the world alone: a file that is missing, cannot be
    opened or cannot be decoded gives the empty mapping; a file that decodes
    gives the decoded value as it is, mapping or not. *)
Theorem load_state_recovers (w : world K) :
  (exists v, load_state w = (inr v, w)) /\
  (pid_file w = Absent \/ pid_file w = Unreadable \/ pid_file w = Malformed ->
   load_state w = (inr (PDict ∅), w)) /\
  (forall v, pid_file w = Document v -> load_state w = (inr v, w)).
Proof.
  rewrite load_state_run. split; [eauto|]. split.
  - by intros [-> | [-> | ->]].
  - by intros v ->.
Qed.


Lemma registry_document (w : world K) (v : pyval) :
  pid_file w = Document v -> registry w = inr v.
Proof. intros Hf. unfold registry. rewrite load_state_run. simpl. by rewrite Hf. Qed.

Lemma entry_document (name : string) (w : world K) (d : gmap string pyval) :
  pid_file w = Document (PDict d) -> entry name w = d !! name.
Proof. intros Hf. unfold entry. by rewrite (registry_document _ _ Hf). Qed.

(** C2, as amended.  When the slot of a script holds a truthy value, [stop]
    returns its redirect whatever the kernel does with the signals (a
    refused or failed delivery is swallowed), and afterwards the registry on
    disk is the old one without that slot; the save is the last thing done. *)
Theorem stop_clears_truthy_slot (name : string) (w : world K)
    (d : gmap string pyval) (pid : pyval) :
  registry w = inr (PDict d) ->
  d !! name = Some pid ->
  truthy pid = true ->
  exists w',
    stop name w = (inr (Redirect "/"), w') /\
    pid_file w' = Document (PDict (delete name d)) /\
    entry name w' = None /\
    last (trace w') = Some (EvSave (PDict (delete name d))).
Proof.
  intros Hreg Hd Ht.
  destruct (stop_clears name w d pid Hreg Hd Ht) as [k' Hrun].
  eexists. split; [exact Hrun|]. simpl. split; [reflexivity|]. split.
  - erewrite entry_document by reflexivity. apply lookup_delete_eq.
  - by rewrite app_assoc, last_snoc.
Qed.

(** C3, as amended.  When the slot of a script holds a truthy integer [z],
    the effects of [stop] are, in this order: SIGTERM to [z]; then, only if
    that delivery did not raise, a sleep of one second, the existence test,
    and SIGKILL to [z] exactly when the test says the process is still
    there; then the save.  When the delivery of SIGTERM raises there is
    neither a wait nor a SIGKILL. *)
Theorem stop_escalates (name : string) (w : world K)
    (d : gmap string pyval) (pid : pyval) (z : Z) :
  registry w = inr (PDict d) ->
  d !! name = Some pid ->
  truthy pid = true ->
  as_int pid = Some z ->
  trace (snd (stop name w)) =
    trace w ++
    (match snd (kill (kernel w) z SIGTERM) with
     | None =>
         [EvKill z SIGTERM; EvSleep 1; EvPidExists z] ++
         (if exists_after_grace (kernel w) z then [EvKill z SIGKILL] else [])
     | Some _ => [EvKill z SIGTERM]
     end) ++
    [EvSave (PDict (delete name d))].
Proof.
  intros Hreg Hd Ht Hz.
  destruct (stop_clears name w d pid Hreg Hd Ht) as [k' Hrun].
  rewrite Hrun. simpl. unfold attempt, stop_signals. rewrite Hz.
  by destruct (snd (kill (kernel w) z SIGTERM)).
Qed.

(** C7, as amended.  On a registry that is a mapping, for a script whose
    slot is empty or holds a truthy value: two calls of [stop] in a row both
    return the redirect, the slot is empty after each, and the second call
    changes nothing.  With an empty slot the first call changes nothing
    either. *)
Theorem stop_twice (name : string) (w : world K) (d : gmap string pyval) :
  registry w = inr (PDict d) ->
  (forall pid, d !! name = Some pid -> truthy pid = true) ->
  let w1 := snd (stop name w) in
  let w2 := snd (stop name w1) in
  fst (stop name w) = inr (Redirect "/") /\
  fst (stop name w1) = inr (Redirect "/") /\
  entry name w1 = None /\
  entry name w2 = None /\
  w2 = w1 /\
  (d !! name = None -> w1 = w).
Proof.
  intros Hreg Hslot. cbv zeta.
  assert (Hnone : forall w0 : world K, entry name w0 = None ->
            (exists d0, registry w0 = inr (PDict d0)) ->
            stop name w0 = (inr (Redirect "/"), w0)).
  { intros w0 He [d0 Hr0]. apply (stop_noop name w0 d0 Hr0).
    unfold entry in He. rewrite Hr0 in He. by rewrite He. }
  destruct (d !! name) as [pid|] eqn:Hd.
  - destruct (stop_clears name w d pid Hreg Hd (Hslot pid eq_refl)) as [k' Hrun].
    rewrite Hrun. simpl.
    match goal with |- context [stop name ?w0] => set (w' := w0) end.
    assert (He : entry name w' = None).
    { unfold w'. erewrite entry_document by reflexivity. apply lookup_delete_eq. }
    rewrite (Hnone w' He) by (eexists; by apply registry_document).
    simpl. repeat split; try done.
  - assert (He : entry name w = None) by (unfold entry; by rewrite Hreg).
    rewrite (Hnone w He) by eauto. simpl. rewrite (Hnone w He) by eauto.
    by repeat split.
Qed.


(** ** Status reads *)

Lemma probe_gone (k : K) (z : Z) :
  0 <= z -> proc_attach k z = Some NoSuchProcess ->
  probe k (PInt z) = inr ("Stopped", PInt 0, PInt 0).
Proof.
  intros Hz Ha. unfold probe, get_process_info, psutil_Process. run.
  destruct (z <? 0) eqn:Hneg; [lia|]. simpl. by rewrite Ha.
Qed.

Lemma probe_zombie (k : K) (z : Z) :
  0 <= z -> proc_attach k z = None -> proc_status k z = inr STATUS_ZOMBIE ->
  probe k (PInt z) = inr ("Zombie", PInt 0, PInt 0).
Proof.
  intros Hz Ha Hs. unfold probe, get_process_info, psutil_Process. run.
  destruct (z <? 0) eqn:Hneg; [lia|]. simpl. rewrite Ha. simpl. by rewrite Hs.
Qed.

Lemma truthy_pos (z : Z) : 0 < z -> truthy (PInt z) = true.
Proof. intros Hz. simpl. destruct (z =? 0) eqn:He; [lia|done]. Qed.

Lemma entry_logged (name : string) (w : world K) evs :
  entry name (logged w evs) = entry name w.
Proof. unfold entry, registry. by rewrite !load_state_run. Qed.

Lemma row_named (rows : list row) (files : list string) (f : string) :
  map r_name rows = files -> f ∈ files -> exists r, r ∈ rows /\ r_name r = f.
Proof.
  intros <- Hin. apply list_elem_of_fmap in Hin as (r & -> & Hr). eauto.
Qed.

(** C1, as amended.  For a listed script whose slot holds a positive pid that
    [psutil] finds no process for, on a registry that is a mapping, and when
    no probe of a listed script raises anything but [NoSuchProcess]: [index]
    returns its page, the page has a row for the script and every such row
    says "Stopped", the registry written back is the old one without the
    stale slots of listed scripts, so without this one, and writing it is the
    last thing done. *)
Theorem index_heals_stale_slot (w : world K) (d : gmap string pyval)
    (f : string) (z : Z) :
  registry w = inr (PDict d) ->
  answers (kernel w) d (listed w) ->
  f ∈ listed w ->
  d !! f = Some (PInt z) ->
  0 < z ->
  proc_attach (kernel w) z = Some NoSuchProcess ->
  exists rows disk cpu w',
    index w = (inr (Rendered rows disk cpu None None), w') /\
    (exists r, r ∈ rows /\ r_name r = f) /\
    (forall r, r ∈ rows -> r_name r = f -> r_status r = "Stopped") /\
    pid_file w' = Document (PDict (pruned (kernel w) d (listed w))) /\
    entry f w' = None /\
    last (trace w') = Some (EvSave (PDict (pruned (kernel w) d (listed w)))).
Proof.
  intros Hreg Ha Hin Hd Hz Hgone.
  assert (Hp : probe (kernel w) (PInt z) = inr ("Stopped", PInt 0, PInt 0))
    by (apply probe_gone; [lia|done]).
  assert (Hs : stale (kernel w) d f = true).
  { unfold stale. by rewrite Hd, (truthy_pos z Hz), Hp. }
  destruct (index_run w d Hreg Ha) as (rows & evs & Hrun & Hn & Hr & He).
  eexists rows, _, _, _. split; [exact Hrun|]. simpl. split.
  { by apply (row_named rows (listed w)). }
  split.
  { intros r Hrin Hname. rewrite Forall_forall in Hr.
    destruct (Hr r Hrin) as [Hrow|[_ Hrow]]; rewrite Hrow; [|done].
    rewrite Hname. unfold row_of. rewrite Hd. simpl.
    change (negb (z =? 0)) with (truthy (PInt z)).
    by rewrite (truthy_pos z Hz), Hp. }
  split; [reflexivity|]. split.
  - erewrite entry_document by reflexivity.
    rewrite pruned_lookup. by rewrite decide_True.
  - by rewrite !app_assoc, last_snoc.
Qed.

(** C5, as amended.  For a listed script whose slot holds the pid of a
    zombie, on a registry that is a mapping, and when no probe of a listed
    script raises anything but [NoSuchProcess]: [index] returns its page,
    and so does [logs] whenever the log of its target can be read; on either
    page the script has a row, every row of the script is "Zombie" with 0
    for CPU and memory, and the slot is still in the registry afterwards. *)
Theorem status_read_keeps_zombie (w : world K) (d : gmap string pyval)
    (f : string) (z : Z) (target : string) :
  registry w = inr (PDict d) ->
  answers (kernel w) d (listed w) ->
  f ∈ listed w ->
  d !! f = Some (PInt z) ->
  0 < z ->
  proc_attach (kernel w) z = None ->
  proc_status (kernel w) z = inr STATUS_ZOMBIE ->
  let zrow := Row f "Zombie" (PInt z) (PInt 0) (PInt 0) in
  (exists rows disk cpu w',
     index w = (inr (Rendered rows disk cpu None None), w') /\
     zrow ∈ rows /\
     (forall r, r ∈ rows -> r_name r = f -> r = zrow) /\
     entry f w' = Some (PInt z)) /\
  (forall content, fst (read_log target w) = inr content ->
   exists rows disk cpu name w',
     logs target w = (inr (Rendered rows disk cpu name (Some content)), w') /\
     zrow ∈ rows /\
     (forall r, r ∈ rows -> r_name r = f -> r = zrow) /\
     entry f w' = Some (PInt z)).
Proof.
  intros Hreg Ha Hin Hd Hz Hatt Hst zrow.
  assert (Hp : probe (kernel w) (PInt z) = inr ("Zombie", PInt 0, PInt 0))
    by (apply probe_zombie; [lia|done..]).
  assert (Hs : stale (kernel w) d f = false).
  { unfold stale. by rewrite Hd, (truthy_pos z Hz), Hp. }
  assert (Hrow : row_of (kernel w) d f = zrow).
  { unfold row_of. rewrite Hd. simpl.
    change (negb (z =? 0)) with (truthy (PInt z)).
    rewrite (truthy_pos z Hz), Hp. unfold pid_cell.
    by rewrite (truthy_pos z Hz). }
  assert (Hent : entry f w = Some (PInt z)) by (unfold entry; by rewrite Hreg).
  split.
  - destruct (index_run w d Hreg Ha) as (rows & evs & Hrun & Hn & Hr & He).
    assert (Hall : forall r, r ∈ rows -> r_name r = f -> r = zrow).
    { intros r Hrin Hname. rewrite Forall_forall in Hr.
      destruct (Hr r Hrin) as [Hrw|[Hst' _]].
      - by rewrite Hrw, Hname.
      - rewrite Hname in Hst'. congruence. }
    eexists rows, _, _, _. split; [exact Hrun|]. split.
    { destruct (row_named rows (listed w) f Hn Hin) as (r & Hrin & Hname).
      by rewrite <- (Hall r Hrin Hname). }
    split; [exact Hall|].
    erewrite entry_document by reflexivity.
    rewrite pruned_lookup, decide_False; [done|]. intros [_ Hs']. congruence.
  - intros content Hread.
    destruct (logs_run target w d content Hreg Ha Hread)
      as (name & evs & Hrun & He).
    eexists _, _, _, _, _. split; [exact Hrun|]. split.
    { rewrite <- Hrow. apply list_elem_of_fmap. eauto. }
    split; [|by rewrite entry_logged].
    intros r Hrin Hname. apply list_elem_of_fmap in Hrin as (g & -> & Hg).
    unfold row_of in Hname.
    assert (g = f) as ->; [|done].
    revert Hname.
    by destruct (if truthy (default PNone (d !! g))
                 then probe (kernel w) (default PNone (d !! g))
                 else inr ("Stopped", PInt 0, PInt 0)) as [e|[[st c] m]].
Qed.


(** ** Start *)

Lemma registry_load (w : world K) (state : pyval) :
  registry w = inr state -> load_state w = (inr state, w).
Proof. unfold registry. rewrite load_state_run. simpl. by intros [= ->]. Qed.

Lemma is_running_run (state : pyval) (name : string) (w : world K) :
  is_running state name w =
  (running_guard (kernel w) state name, logged w (guard_probe state name)).
Proof.
  unfold is_running, running_guard, guard_probe, bind at 1. unfold lift.
  destruct (py_contains name state) as [e|[|]]; simpl;
    try by rewrite logged_nil.
  unfold bind at 1.
  destruct (py_getitem state name) as [e|pid]; simpl;
    try by rewrite logged_nil.
  unfold bind. rewrite get_process_info_run.
  by destruct (probe (kernel w) pid) as [e|[[status cpu] mem]].
Qed.

(** [start], case by case. *)
Lemma start_run (name : string) (w : world K) (state : pyval) :
  registry w = inr state ->
  start name w =
  let evs := guard_probe state name in
  match running_guard (kernel w) state name with
  | inl e => (inl e, logged w evs)
  | inr true => (inr (Redirect "/"), logged w evs)
  | inr false =>
      let log := EvOpenAppend (path_join LOGS_DIR (log_name name)) in
      let ld := opened name (logs_dir w) in
      match popen (kernel w) (argv_of name) with
      | (k', inl e) =>
          (inl e, World k' (pid_file w) (scripts_dir w) ld
                        (trace w ++ evs ++ [log; EvPopen (argv_of name)]))
      | (k', inr p) =>
          match py_setitem state name (PInt (Z.pos p)) with
          | inl e =>
              (inl e, World k' (pid_file w) (scripts_dir w) ld
                            (trace w ++ evs ++ [log; EvPopen (argv_of name)]))
          | inr state' =>
              (inr (Redirect "/"),
               World k' (Document state') (scripts_dir w) ld
                     (trace w ++ evs ++
                      [log; EvPopen (argv_of name); EvSave state']))
          end
      end
  end.
Proof.
  intros Hreg. unfold start. unfold bind at 1. rewrite (registry_load _ _ Hreg).
  unfold bind at 1. rewrite is_running_run. cbv zeta.
  destruct (running_guard (kernel w) state name) as [e|[|]]; try reflexivity.
  unfold open_append, Popen, opened, argv_of. run.
  destruct (popen (kernel w) ["python3"; "-u"; path_join SCRIPTS_DIR name])
    as [k' [e|p]]; simpl.
  { by rewrite <- !app_assoc. }
  destruct (py_setitem state name (PInt (Z.pos p))) as [e|state']; simpl;
    by rewrite <- !app_assoc.
Qed.


(** C6.  When process creation fails with an exception [e]: the registry
    file is what it was, whatever else [start] did; and when [start] got as
    far as creating the process (its test did not find the script running),
    [e] is what the caller gets. *)
Theorem start_surfaces_spawn_failure (name : string) (w : world K)
    (state : pyval) (k' : K) (e : exn) :
  registry w = inr state ->
  popen (kernel w) (argv_of name) = (k', inl e) ->
  pid_file (snd (start name w)) = pid_file w /\
  registry (snd (start name w)) = inr state /\
  (running_guard (kernel w) state name = inr false ->
   fst (start name w) = inl e).
Proof.
  intros Hreg Hpopen. rewrite (start_run name w state Hreg). cbv zeta.
  rewrite Hpopen.
  assert (Hframe : forall w' : world K, pid_file w' = pid_file w ->
            registry w' = inr state).
  { intros w' Hf. unfold registry in *. rewrite load_state_run in *. simpl in *.
    by rewrite Hf. }
  destruct (running_guard (kernel w) state name) as [e'|[|]]; simpl;
    repeat split; try done; by apply Hframe.
Qed.

(** C8.  When the registry has a slot for the script and the probe of its
    value says "Running", [start] returns its redirect and has done nothing
    but that probe: no process is created, and the kernel, the registry file
    and the directories are what they were. *)
Theorem start_running_is_noop (name : string) (w : world K)
    (d : gmap string pyval) (pid cpu mem : pyval) :
  registry w = inr (PDict d) ->
  d !! name = Some pid ->
  probe (kernel w) pid = inr ("Running", cpu, mem) ->
  start name w = (inr (Redirect "/"), logged w [EvProcess pid]).
Proof.
  intros Hreg Hd Hp. rewrite (start_run name w (PDict d) Hreg). cbv zeta.
  unfold running_guard, guard_probe, py_contains, py_getitem. rewrite Hd.
  rewrite bool_decide_true by eauto. by rewrite Hp.
Qed.

(** ** Delete *)

(** What [delete_script] does once [stop] has returned. *)
Lemma delete_script_after_stop (name : string) (w w1 : world K) (r : response)
    (d1 : gmap string pyval) :
  stop name w = (inr r, w1) ->
  registry w1 = inr (PDict d1) ->
  delete_script name w =
  (inr (Redirect "/"),
   World (kernel w1)
         (match d1 !! name with
          | Some _ => Document (PDict (delete name d1))
          | None => pid_file w1
          end)
         (if existsb (String.eqb name) (scripts_dir w1)
          then List.filter (fun f => negb (String.eqb name f)) (scripts_dir w1)
          else scripts_dir w1)
         (match logs_dir w1 !! log_name name with
          | Some _ => delete (log_name name) (logs_dir w1)
          | None => logs_dir w1
          end)
         (trace w1 ++
          (if existsb (String.eqb name) (scripts_dir w1)
           then [EvRemove (path_join SCRIPTS_DIR name)] else []) ++
          (match logs_dir w1 !! log_name name with
           | Some _ => [EvRemove (path_join LOGS_DIR (log_name name))]
           | None => []
           end) ++
          (match d1 !! name with
           | Some _ => [EvSave (PDict (delete name d1))]
           | None => []
           end))).
Proof.
  intros Hstop Hreg. unfold delete_script. unfold bind at 1. rewrite Hstop.
  apply registry_load in Hreg. rewrite load_state_run in Hreg.
  destruct w1 as [k1 pf sd ld tr]. simpl in *.
  injection Hreg as Hpf.
  unfold script_exists, log_exists, remove_script, remove_log. run.
  destruct (existsb (String.eqb name) sd) eqn:Hs; simpl;
    destruct (ld !! log_name name) as [lines|] eqn:Hl; simpl;
    rewrite ?load_state_run; simpl; rewrite Hpf; simpl;
    destruct (d1 !! name) as [v|] eqn:Hd; simpl;
    rewrite <- ?app_assoc, ?app_nil_r; reflexivity.
Qed.



(** [stop] on a registry that is a mapping: it returns, leaves the
    directories alone, and the registry afterwards is the old one, without
    the slot when its value was truthy. *)
Lemma stop_run (name : string) (w : world K) (d : gmap string pyval) :
  registry w = inr (PDict d) ->
  exists w1,
    stop name w = (inr (Redirect "/"), w1) /\
    scripts_dir w1 = scripts_dir w /\
    logs_dir w1 = logs_dir w /\
    registry w1 =
      inr (PDict (if truthy (default PNone (d !! name)) then delete name d else d)).
Proof.
  intros Hreg. destruct (truthy (default PNone (d !! name))) eqn:Ht.
  - destruct (d !! name) as [pid|] eqn:Hd; [|discriminate]. simpl in Ht.
    destruct (stop_clears name w d pid Hreg Hd Ht) as [k' Hrun].
    eexists. split; [exact Hrun|]. simpl. by repeat split.
  - exists w. by rewrite (stop_noop name w d Hreg Ht).
Qed.

(** [delete_script] on a registry that is a mapping returns and leaves no
    slot for the script. *)
Lemma delete_script_clears (name : string) (w : world K) (d : gmap string pyval) :
  registry w = inr (PDict d) ->
  fst (delete_script name w) = inr (Redirect "/") /\
  entry name (snd (delete_script name w)) = None.
Proof.
  intros Hreg.
  destruct (stop_run name w d Hreg) as (w1 & Hstop & _ & _ & Hreg1).
  rewrite (delete_script_after_stop name w w1 _ _ Hstop Hreg1). simpl.
  split; [reflexivity|].
  set (d1 := if truthy (default PNone (d !! name)) then delete name d else d) in *.
  destruct (d1 !! name) as [v|] eqn:Hd1.
  - erewrite entry_document by reflexivity. apply lookup_delete_eq.
  - unfold entry, registry in *. rewrite load_state_run in *. simpl in *.
    destruct w1 as [k1 pf sd ld tr]; simpl in *.
    injection Hreg1 as ->. exact Hd1.
Qed.



(** ** Slots holding a falsy value *)

Lemma not_probed_falsy (d : gmap string pyval) files (pid : pyval) evs :
  truthy pid = false -> Forall (probed d files) evs -> EvProcess pid ∉ evs.
Proof.
  intros Ht He Hin. rewrite Forall_forall in He.
  destruct (He _ Hin) as (g & v & _ & _ & Hv & [= ->]). congruence.
Qed.

(** [start] never takes a slot out of a registry that is a mapping: the
    slot keeps its value or gets the pid of a new process. *)
Lemma start_keeps_slot (name : string) (w : world K) (d : gmap string pyval)
    (pid : pyval) :
  registry w = inr (PDict d) -> d !! name = Some pid ->
  entry name (snd (start name w)) = Some pid \/
  exists p : positive, entry name (snd (start name w)) = Some (PInt (Z.pos p)).
Proof.
  intros Hreg Hd. rewrite (start_run name w (PDict d) Hreg). cbv zeta.
  assert (He : forall evs, entry name (logged w evs) = Some pid).
  { intros evs. rewrite entry_logged. unfold entry. by rewrite Hreg. }
  assert (Hf : forall w' : world K, pid_file w' = pid_file w ->
            entry name w' = Some pid).
  { intros w' Hpf. unfold entry, registry in *. rewrite load_state_run in *.
    simpl in *. rewrite Hpf. by injection Hreg as ->. }
  destruct (running_guard (kernel w) (PDict d) name) as [e|[|]]; simpl;
    try (left; apply He).
  destruct (popen (kernel w) (argv_of name)) as [k' [e|p]]; simpl.
  - left. by apply Hf.
  - right. exists p. erewrite entry_document by reflexivity.
    by rewrite lookup_insert_eq.
Qed.

(** X19.  A slot holding a falsy value, on a registry that is a mapping.
    When the script is listed and the probes answer, [index], and [logs]
    whenever the log of its target can be read, give the script the row of
    an empty slot ("Stopped", "-", 0, 0), do not probe the value, and leave
    the slot where it is, also in what [index] writes back.  [stop] does
    nothing at all.  After [start] the slot is still there, with its value
    or with the pid of a new process.  [delete_script] returns and takes the
    slot out. *)
Theorem falsy_slot_is_inert (w : world K) (d : gmap string pyval)
    (f : string) (pid : pyval) (target : string) :
  registry w = inr (PDict d) ->
  d !! f = Some pid ->
  truthy pid = false ->
  let blank := Row f "Stopped" (PStr "-") (PInt 0) (PInt 0) in
  (answers (kernel w) d (listed w) -> f ∈ listed w ->
   (exists rows disk cpu w' evs,
      index w = (inr (Rendered rows disk cpu None None), w') /\
      blank ∈ rows /\
      (forall r, r ∈ rows -> r_name r = f -> r = blank) /\
      trace w' = trace w ++ evs /\
      (EvProcess pid ∉ evs) /\
      entry f w' = Some pid) /\
   (forall content, fst (read_log target w) = inr content ->
    exists rows disk cpu name evs,
      logs target w =
        (inr (Rendered rows disk cpu name (Some content)), logged w evs) /\
      blank ∈ rows /\
      (forall r, r ∈ rows -> r_name r = f -> r = blank) /\
      (EvProcess pid ∉ evs) /\
      entry f (logged w evs) = Some pid)) /\
  stop f w = (inr (Redirect "/"), w) /\
  (entry f (snd (start f w)) = Some pid \/
   exists p : positive, entry f (snd (start f w)) = Some (PInt (Z.pos p))) /\
  fst (delete_script f w) = inr (Redirect "/") /\
  entry f (snd (delete_script f w)) = None.
Proof.
  intros Hreg Hd Ht blank.
  assert (Hs : stale (kernel w) d f = false) by (unfold stale; by rewrite Hd, Ht).
  assert (Hrow : row_of (kernel w) d f = blank).
  { unfold row_of. rewrite Hd. simpl. rewrite Ht. unfold pid_cell. by rewrite Ht. }
  assert (Hent : entry f w = Some pid) by (unfold entry; by rewrite Hreg).
  split; [|split; [|split]].
  - intros Ha Hin. split.
    + destruct (index_run w d Hreg Ha) as (rows & evs & Hrun & Hn & Hr & He).
      assert (Hall : forall r, r ∈ rows -> r_name r = f -> r = blank).
      { intros r Hrin Hname. rewrite Forall_forall in Hr.
        destruct (Hr r Hrin) as [Hrw|[Hst' _]].
        - by rewrite Hrw, Hname.
        - rewrite Hname in Hst'. congruence. }
      eexists rows, _, _, _, _. split; [exact Hrun|]. split.
      { destruct (row_named rows (listed w) f Hn Hin) as (r & Hrin & Hname).
        by rewrite <- (Hall r Hrin Hname). }
      split; [exact Hall|]. simpl. split; [reflexivity|]. split.
      * intros Hin'. apply elem_of_app in Hin' as [Hin'|Hin'].
        -- by apply (not_probed_falsy d (listed w) pid evs Ht He).
        -- apply list_elem_of_singleton in Hin'. discriminate.
      * erewrite entry_document by reflexivity.
        rewrite pruned_lookup, decide_False; [done|]. intros [_ Hs']. congruence.
    + intros content Hread.
      destruct (logs_run target w d content Hreg Ha Hread)
        as (name & evs & Hrun & He).
      eexists _, _, _, _, evs. split; [exact Hrun|]. split.
      { rewrite <- Hrow. apply list_elem_of_fmap. eauto. }
      split; [|split].
      * intros r Hrin Hname. apply list_elem_of_fmap in Hrin as (g & -> & Hg).
        unfold row_of in Hname.
        assert (g = f) as ->; [|done].
        revert Hname.
        by destruct (if truthy (default PNone (d !! g))
                     then probe (kernel w) (default PNone (d !! g))
                     else inr ("Stopped", PInt 0, PInt 0)) as [e|[[st c] m]].
      * by apply (not_probed_falsy d (listed w) pid evs Ht He).
      * by rewrite entry_logged.
  - apply (stop_noop f w d Hreg). by rewrite Hd.
  - by apply (start_keeps_slot f w d pid).
  - apply (delete_script_clears f w d Hreg).
Qed.


Lemma answersb_sound (k : K) (d : gmap string pyval) (files : list string) :
  answersb k d files = true -> answers k d files.
Proof.
  unfold answersb. rewrite forallb_forall. intros Hall f pid Hin Hd Ht.
  apply list_elem_of_In in Hin. specialize (Hall f Hin).
  rewrite Hd, Ht in Hall. destruct (probe k pid) as [e|r]; [discriminate|eauto].
Qed.


(** * Further properties *)

(** ** Frames *)

Lemma frames_bind {A B} (R : world K -> world K -> Prop) (m : M A) (f : A -> M B) :
  (forall w1 w2 w3, R w1 w2 -> R w2 w3 -> R w1 w3) ->
  frames R m -> (forall a, frames R (f a)) -> frames R (bind m f).
Proof.
  intros Htrans Hm Hf w. unfold bind. specialize (Hm w).
  destruct (m w) as [[e|a] w']; simpl in *; [done|].
  eapply Htrans; [exact Hm|apply Hf].
Qed.

Lemma frames_for_each {A S} (R : world K -> world K -> Prop)
    (body : A -> S -> M S) (l : list A) :
  (forall w, R w w) ->
  (forall w1 w2 w3, R w1 w2 -> R w2 w3 -> R w1 w3) ->
  (forall a s, frames R (body a s)) ->
  forall s, frames R (for_each body l s).
Proof.
  intros Hrefl Htrans Hbody. induction l as [|a l IH]; intros s.
  - intros w. apply Hrefl.
  - simpl. apply frames_bind; [done|apply Hbody|apply IH].
Qed.

Local Abbreviation probing m := (@frames K _ (@probes_only K) m).
Local Abbreviation quiet m := (@frames K _ (@same_system K) m).

Lemma probes_only_refl (w : world K) : probes_only w w.
Proof. exists []. by rewrite logged_nil. Qed.

Lemma probes_only_trans (w1 w2 w3 : world K) :
  probes_only w1 w2 -> probes_only w2 w3 -> probes_only w1 w3.
Proof.
  intros (evs & -> & He) (evs' & -> & He'). exists (evs ++ evs').
  rewrite logged_logged. split; [done|]. by apply Forall_app.
Qed.

Lemma same_system_refl (w : world K) : same_system w w.
Proof. by repeat split. Qed.

Lemma same_system_trans (w1 w2 w3 : world K) :
  same_system w1 w2 -> same_system w2 w3 -> same_system w1 w3.
Proof.
  intros (Hk & Hs & Hl) (Hk' & Hs' & Hl'). repeat split; congruence.
Qed.

Lemma probes_only_same_system (w w' : world K) :
  probes_only w w' -> same_system w w'.
Proof. by intros (evs & -> & _). Qed.

Lemma get_process_info_probes (pid : pyval) :
  probing (get_process_info pid).
Proof.
  intros w. rewrite get_process_info_run. simpl. exists [EvProcess pid].
  split; [done|]. constructor; [by exists pid|constructor].
Qed.

Lemma load_state_probes : probing (@load_state K).
Proof. intros w. rewrite load_state_run. apply probes_only_refl. Qed.

Lemma lift_probes {A} (r : result A) : probing (lift r).
Proof. intros w. apply probes_only_refl. Qed.

Lemma ret_probes {A} (a : A) : probing (ret a).
Proof. intros w. apply probes_only_refl. Qed.

Lemma logs_body_probes (state : pyval) (f : string) (rows : list row) :
  probing (logs_body state f rows).
Proof.
  unfold logs_body.
  apply frames_bind; [apply probes_only_trans|apply lift_probes|]. intros pid.
  apply frames_bind; [apply probes_only_trans| |].
  - destruct (truthy pid); [apply get_process_info_probes|apply ret_probes].
  - intros [[status cpu] mem]. apply ret_probes.
Qed.

Lemma index_body_same_system (f : string) (acc : pyval * list row) :
  quiet (index_body f acc).
Proof.
  assert (Hp : forall A (m : @M K A), probing m -> quiet m).
  { intros A m Hm w. apply probes_only_same_system, Hm. }
  unfold index_body. destruct acc as [state rows].
  apply frames_bind; [apply same_system_trans|apply Hp, lift_probes|]. intros pid.
  apply frames_bind; [apply same_system_trans| |].
  - destruct (truthy pid); [|apply Hp, ret_probes].
    apply frames_bind;
      [apply same_system_trans|apply Hp, get_process_info_probes|].
    intros [[status cpu] mem].
    destruct (String.eqb status "Stopped"); [|apply Hp, ret_probes].
    apply frames_bind; [apply same_system_trans|apply Hp, lift_probes|].
    intros [|]; [|apply Hp, ret_probes].
    apply frames_bind; [apply same_system_trans|apply Hp, lift_probes|].
    intros state'. apply Hp, ret_probes.
  - intros [[[status cpu] mem] state']. apply Hp, ret_probes.
Qed.

(** X8.  [logs] is a pure read.  In every world and for every target, whether
    it returns a page or raises, [logs] leaves the registry file, the
    directories and the kernel as they are; all it does is probe. *)
Theorem logs_reads_only (target : string) (w : world K) :
  exists evs,
    snd (logs target w) = logged w evs /\ Forall is_probe evs.
Proof.
  revert w. change (probing (logs target)). unfold logs.
  destruct (if String.eqb target "pip_install"
            then ("pip_install", "PIP INSTALL LOGS") else (target, target))
    as [file name].
  apply frames_bind; [apply probes_only_trans| |].
  { intros w. apply probes_only_refl. }
  intros content.
  apply frames_bind; [apply probes_only_trans|apply load_state_probes|].
  intros state.
  apply frames_bind; [apply probes_only_trans| |].
  { intros w. apply probes_only_refl. }
  intros files.
  apply frames_bind; [apply probes_only_trans| |].
  { apply frames_for_each;
      [apply probes_only_refl|apply probes_only_trans|].
    intros f rows. apply logs_body_probes. }
  intros rows.
  apply frames_bind; [apply probes_only_trans| |].
  { intros w. apply probes_only_refl. }
  intros k. apply ret_probes.
Qed.

(** X5.  Whatever the world and whatever its outcome, [index] sends no signal,
    creates no process and touches no script or log file: the kernel and
    both directories are what they were. *)
Theorem index_keeps_system (w : world K) :
  kernel (snd (index w)) = kernel w /\
  scripts_dir (snd (index w)) = scripts_dir w /\
  logs_dir (snd (index w)) = logs_dir w.
Proof.
  revert w. change (quiet (@index K _)). unfold index.
  apply frames_bind; [apply same_system_trans| |].
  { intros w. apply probes_only_same_system, load_state_probes. }
  intros state.
  apply frames_bind; [apply same_system_trans| |].
  { intros w. apply same_system_refl. }
  intros files.
  apply frames_bind; [apply same_system_trans| |].
  { apply frames_for_each;
      [apply same_system_refl|apply same_system_trans|].
    intros f acc. apply index_body_same_system. }
  intros [state' rows].
  apply frames_bind; [apply same_system_trans| |].
  { intros w. rewrite save_state_run. by repeat split. }
  intros _.
  apply frames_bind; [apply same_system_trans| |].
  { intros w. apply same_system_refl. }
  intros k w. apply same_system_refl.
Qed.


(** ** The probe *)

(** X1.  The three outcomes of [get_process_info].  When it returns, the
    status is "Stopped" or "Zombie" with 0 for both metrics, or "Running"
    with two floats, the second being the resident size in bytes over 2^20;
    when it raises, the exception is not [NoSuchProcess] (nor its subclass
    [ZombieProcess]): those never get out. *)
Theorem get_process_info_outcomes (pid : pyval) (w : world K) :
  match fst (get_process_info pid w) with
  | inr (status, cpu, mem) =>
      (status = "Stopped" /\ cpu = PInt 0 /\ mem = PInt 0) \/
      (status = "Zombie" /\ cpu = PInt 0 /\ mem = PInt 0) \/
      (status = "Running" /\
       exists c rss, cpu = PFloat c /\
                     mem = PFloat (inject_Z rss / inject_Z 1048576))
  | inl e => is_NoSuchProcess e = false
  end.
Proof.
  rewrite get_process_info_run. simpl.
  unfold probe, get_process_info, psutil_Process. run.
  destruct pid as [ | b | z | q | s | l | d]; simpl; probe_cases;
    try reflexivity; try (left; by repeat split);
    try (right; left; by repeat split);
    try (right; right; split; [reflexivity|]; eauto);
    match goal with
    | He : is_NoSuchProcess _ = false |- _ => exact He
    end.
Qed.

(** ** Start, when the process is created *)

Lemma running_guard_dict (k : K) (d : gmap string pyval) (name : string) :
  (forall pid, d !! name = Some pid ->
     exists status cpu mem,
       probe k pid = inr (status, cpu, mem) /\ status <> "Running") ->
  running_guard k (PDict d) name = inr false.
Proof.
  intros Hslot. unfold running_guard, py_contains, py_getitem.
  destruct (d !! name) as [pid|] eqn:Hd; [|reflexivity].
  rewrite bool_decide_true by eauto.
  destruct (Hslot pid eq_refl) as (status & cpu & mem & -> & Hne).
  destruct (String.eqb_spec status "Running"); [done|reflexivity].
Qed.

Lemma guard_probe_dict (d : gmap string pyval) (name : string) :
  Forall is_probe (guard_probe (PDict d) name).
Proof.
  unfold guard_probe, py_contains, py_getitem.
  destruct (d !! name) as [pid|]; [|constructor].
  rewrite bool_decide_true by eauto. constructor; [by exists pid|constructor].
Qed.

(** [start] when the test fails and the process is created. *)
Lemma start_spawns (name : string) (w : world K) (d : gmap string pyval)
    (k' : K) (p : positive) :
  registry w = inr (PDict d) ->
  (forall pid, d !! name = Some pid ->
     exists status cpu mem,
       probe (kernel w) pid = inr (status, cpu, mem) /\ status <> "Running") ->
  popen (kernel w) (argv_of name) = (k', inr p) ->
  start name w =
  (inr (Redirect "/"),
   World k' (Document (PDict (<[name := PInt (Z.pos p)]> d))) (scripts_dir w)
         (opened name (logs_dir w))
         (trace w ++ guard_probe (PDict d) name ++
          [EvOpenAppend (path_join LOGS_DIR (log_name name));
           EvPopen (argv_of name);
           EvSave (PDict (<[name := PInt (Z.pos p)]> d))])).
Proof.
  intros Hreg Hslot Hpopen. rewrite (start_run name w (PDict d) Hreg). cbv zeta.
  by rewrite (running_guard_dict _ _ _ Hslot), Hpopen.
Qed.

(** X10.  A successful start.  On a registry that is a mapping, when the slot
    of the script is empty or its probe says anything but "Running" (gone,
    zombie), and the process is created with pid [p]: [start] returns its
    redirect; the slot of the script now holds [p], replacing what it held;
    the slots of the other scripts are what they were; the scripts directory
    is untouched; the log of the script is there, with the lines it had; and
    the effects after the probe are, in this order, opening the log,
    creating the process, saving the registry. *)
Theorem start_records_child (name : string) (w : world K)
    (d : gmap string pyval) (k' : K) (p : positive) :
  registry w = inr (PDict d) ->
  (forall pid, d !! name = Some pid ->
     exists status cpu mem,
       probe (kernel w) pid = inr (status, cpu, mem) /\ status <> "Running") ->
  popen (kernel w) (argv_of name) = (k', inr p) ->
  exists w' evs,
    start name w = (inr (Redirect "/"), w') /\
    kernel w' = k' /\
    entry name w' = Some (PInt (Z.pos p)) /\
    (forall g, g <> name -> entry g w' = entry g w) /\
    scripts_dir w' = scripts_dir w /\
    logs_dir w' !! log_name name =
      Some (default [] (logs_dir w !! log_name name)) /\
    Forall is_probe evs /\
    trace w' =
      trace w ++ evs ++
      [EvOpenAppend (path_join LOGS_DIR (log_name name));
       EvPopen (argv_of name);
       EvSave (PDict (<[name := PInt (Z.pos p)]> d))].
Proof.
  intros Hreg Hslot Hpopen.
  eexists _, (guard_probe (PDict d) name).
  split; [exact (start_spawns name w d k' p Hreg Hslot Hpopen)|]. simpl.
  split; [reflexivity|]. split.
  { erewrite entry_document by reflexivity. apply lookup_insert_eq. }
  split.
  { intros g Hne. erewrite entry_document by reflexivity.
    rewrite lookup_insert_ne by done. unfold entry. by rewrite Hreg. }
  split; [reflexivity|]. split.
  { unfold opened. destruct (logs_dir w !! log_name name) as [lines|] eqn:Hl.
    - by rewrite Hl.
    - by rewrite lookup_insert_eq. }
  split; [apply guard_probe_dict|reflexivity].
Qed.

(** X11.  Start, then stop.  After a successful start, with child [p], an
    immediate [stop] returns its redirect whatever the kernel does, sends
    SIGTERM to [p] first, and leaves the registry as it was before the start
    minus the slot of the script. *)
Theorem start_then_stop (name : string) (w : world K)
    (d : gmap string pyval) (k' : K) (p : positive) :
  registry w = inr (PDict d) ->
  (forall pid, d !! name = Some pid ->
     exists status cpu mem,
       probe (kernel w) pid = inr (status, cpu, mem) /\ status <> "Running") ->
  popen (kernel w) (argv_of name) = (k', inr p) ->
  let w1 := snd (start name w) in
  exists w2 evs,
    stop name w1 = (inr (Redirect "/"), w2) /\
    pid_file w2 = Document (PDict (delete name d)) /\
    entry name w2 = None /\
    trace w2 =
      trace w1 ++ EvKill (Z.pos p) SIGTERM :: evs ++
      [EvSave (PDict (delete name d))].
Proof.
  intros Hreg Hslot Hpopen. cbv zeta.
  rewrite (start_spawns name w d k' p Hreg Hslot Hpopen). simpl.
  match goal with |- context [stop name ?w0] => set (w1 := w0) end.
  destruct (stop_clears name w1 (<[name := PInt (Z.pos p)]> d) (PInt (Z.pos p)))
    as [k2 Hrun]; [reflexivity|apply lookup_insert_eq|reflexivity|].
  rewrite delete_insert_eq in Hrun.
  assert (Hsig : exists evs, attempt (kernel w1) (PInt (Z.pos p)) =
                             EvKill (Z.pos p) SIGTERM :: evs).
  { unfold attempt, stop_signals. simpl.
    destruct (snd (kill k' (Z.pos p) SIGTERM)); simpl; eauto. }
  destruct Hsig as [evs Hsig]. rewrite Hsig in Hrun.
  eexists _, evs. split; [exact Hrun|]. simpl. split; [reflexivity|]. split.
  - erewrite entry_document by reflexivity. apply lookup_delete_eq.
  - reflexivity.
Qed.

(** X12.  Starting twice creates one process.  After a successful start with
    child [p], if the probe of [p] says "Running", a second [start] returns
    its redirect having done nothing but that probe: no second process, the
    registry file untouched. *)
Theorem start_twice_spawns_once (name : string) (w : world K)
    (d : gmap string pyval) (k' : K) (p : positive) (cpu mem : pyval) :
  registry w = inr (PDict d) ->
  (forall pid, d !! name = Some pid ->
     exists status cpu mem,
       probe (kernel w) pid = inr (status, cpu, mem) /\ status <> "Running") ->
  popen (kernel w) (argv_of name) = (k', inr p) ->
  probe k' (PInt (Z.pos p)) = inr ("Running", cpu, mem) ->
  let w1 := snd (start name w) in
  start name w1 = (inr (Redirect "/"), logged w1 [EvProcess (PInt (Z.pos p))]).
Proof.
  intros Hreg Hslot Hpopen Hrunning. cbv zeta.
  rewrite (start_spawns name w d k' p Hreg Hslot Hpopen). simpl.
  match goal with |- context [start name ?w0] => set (w1 := w0) end.
  rewrite (start_run name w1 (PDict (<[name := PInt (Z.pos p)]> d)) eq_refl).
  cbv zeta. unfold running_guard, guard_probe, py_contains, py_getitem.
  rewrite lookup_insert_eq. rewrite bool_decide_true by eauto.
  subst w1. simpl. by rewrite Hrunning.
Qed.

(** X13.  Start on a registry that is a list.  When the registry file holds a
    JSON list that does not contain the script's name, [start] creates the
    process and only then raises [TypeError], at [state[script_name] = pid]:
    the process runs, and the registry file, unchanged, has no record of it. *)
Theorem start_on_list_registry (name : string) (w : world K)
    (l : list pyval) (k' : K) (p : positive) :
  registry w = inr (PList l) ->
  existsb (str_eq name) l = false ->
  popen (kernel w) (argv_of name) = (k', inr p) ->
  exists w',
    start name w = (inl TypeError, w') /\
    kernel w' = k' /\
    pid_file w' = pid_file w /\
    last (trace w') = Some (EvPopen (argv_of name)).
Proof.
  intros Hreg Hnot Hpopen. rewrite (start_run name w (PList l) Hreg). cbv zeta.
  unfold running_guard, guard_probe, py_contains. rewrite Hnot, Hpopen. simpl.
  eexists. split; [reflexivity|]. simpl. repeat split.
  change [EvOpenAppend (path_join LOGS_DIR (log_name name)); EvPopen (argv_of name)]
    with ([EvOpenAppend (path_join LOGS_DIR (log_name name))] ++
          [EvPopen (argv_of name)]).
  by rewrite app_assoc, last_snoc.
Qed.


(** ** More on [index] *)

Lemma index_entry (w : world K) (d : gmap string pyval) (g : string) :
  registry w = inr (PDict d) ->
  answers (kernel w) d (listed w) ->
  entry g (snd (index w)) = pruned (kernel w) d (listed w) !! g.
Proof.
  intros Hreg Ha.
  destruct (index_run w d Hreg Ha) as (rows & evs & Hrun & _).
  rewrite Hrun. simpl. by erewrite entry_document by reflexivity.
Qed.

(** X2.  What [index] leaves alone.  On a registry that is a mapping and
    probes that answer, the registry after [index] has no slot that was not
    there with the same value; the slot of a script that is not listed is
    kept; and so is a slot whose probe says anything but "Stopped" (running,
    zombie). *)
Theorem index_spares (w : world K) (d : gmap string pyval) :
  registry w = inr (PDict d) ->
  answers (kernel w) d (listed w) ->
  let w' := snd (index w) in
  (forall g v, entry g w' = Some v -> d !! g = Some v) /\
  (forall g, g ∉ listed w -> entry g w' = d !! g) /\
  (forall g pid status cpu mem,
     d !! g = Some pid ->
     probe (kernel w) pid = inr (status, cpu, mem) ->
     status <> "Stopped" ->
     entry g w' = Some pid).
Proof.
  intros Hreg Ha. cbv zeta. repeat split.
  - intros g v. rewrite (index_entry w d g Hreg Ha), pruned_lookup.
    by case_decide.
  - intros g Hout. rewrite (index_entry w d g Hreg Ha), pruned_lookup.
    rewrite decide_False; [done|]. by intros [Hin _].
  - intros g pid status cpu mem Hd Hp Hne.
    rewrite (index_entry w d g Hreg Ha), pruned_lookup.
    rewrite decide_False; [done|]. intros [_ Hs]. unfold stale in Hs.
    rewrite Hd, Hp in Hs. apply andb_true_iff in Hs as [_ Hs].
    by apply String.eqb_eq in Hs.
Qed.

Lemma stale_pruned (k : K) (d : gmap string pyval) files (g : string) :
  stale k (pruned k d files) g =
  if decide (g ∈ files /\ stale k d g = true) then false else stale k d g.
Proof.
  unfold stale at 1. rewrite pruned_lookup. case_decide; [done|]. reflexivity.
Qed.

Lemma pruned_pruned (k : K) (d : gmap string pyval) files :
  pruned k (pruned k d files) files = pruned k d files.
Proof.
  apply map_eq. intros g. rewrite pruned_lookup, stale_pruned.
  destruct (decide (g ∈ files /\ stale k d g = true)) as [Hc|Hc].
  - assert (Hnone : pruned k d files !! g = None)
      by (rewrite pruned_lookup; by rewrite decide_True).
    rewrite Hnone. by case_decide.
  - rewrite decide_False; [done|]. intros [Hin Hs]. apply Hc. by split.
Qed.

Lemma answers_pruned (k : K) (d : gmap string pyval) files files' :
  answers k d files -> answers k (pruned k d files') files.
Proof.
  intros Ha f pid Hin Hd. apply (Ha f pid Hin).
  rewrite pruned_lookup in Hd. by case_decide.
Qed.

(** X3.  [index] is idempotent on the registry.  On a registry that is a
    mapping and probes that answer, a second [index] right after the first
    returns its page too and writes back the very registry the first one
    wrote. *)
Theorem index_twice (w : world K) (d : gmap string pyval) :
  registry w = inr (PDict d) ->
  answers (kernel w) d (listed w) ->
  let w1 := snd (index w) in
  (exists rows disk cpu, fst (index w1) = inr (Rendered rows disk cpu None None)) /\
  pid_file (snd (index w1)) = pid_file w1.
Proof.
  intros Hreg Ha. cbv zeta.
  destruct (index_run w d Hreg Ha) as (rows & evs & Hrun & _).
  rewrite Hrun. simpl.
  match goal with |- context [index ?w0] => set (w1 := w0) end.
  assert (Hreg1 : registry w1 = inr (PDict (pruned (kernel w) d (listed w))))
    by (by apply registry_document).
  assert (Ha1 : answers (kernel w1) (pruned (kernel w) d (listed w)) (listed w1))
    by (by apply answers_pruned).
  destruct (index_run w1 _ Hreg1 Ha1) as (rows1 & evs1 & Hrun1 & _).
  rewrite Hrun1. simpl. split; [eauto|].
  change (listed w1) with (listed w). by rewrite pruned_pruned.
Qed.

Lemma pruned_empty (k : K) files : pruned k ∅ files = ∅.
Proof. apply map_eq. intros g. rewrite pruned_lookup. by case_decide. Qed.

(** X4.  [index] repairs the registry file.  When the file is missing or
    cannot be decoded, [index] returns its page, every script on it is
    "Stopped" with no pid, nothing is probed, and the file is written anew,
    holding the empty mapping. *)
Theorem index_repairs_registry (w : world K) :
  pid_file w = Absent \/ pid_file w = Malformed ->
  exists rows disk cpu w',
    index w = (inr (Rendered rows disk cpu None None), w') /\
    map r_name rows = listed w /\
    (forall r, r ∈ rows ->
       r = Row (r_name r) "Stopped" (PStr "-") (PInt 0) (PInt 0)) /\
    pid_file w' = Document (PDict ∅) /\
    trace w' = trace w ++ [EvSave (PDict ∅)].
Proof.
  intros Hfile.
  assert (Hreg : registry w = inr (PDict ∅)).
  { unfold registry. rewrite load_state_run. simpl. by destruct Hfile as [-> | ->]. }
  assert (Ha : answers (kernel w) ∅ (listed w)).
  { intros f pid _ Hd. by rewrite lookup_empty in Hd. }
  destruct (index_run w ∅ Hreg Ha) as (rows & evs & Hrun & Hn & Hr & He).
  rewrite pruned_empty in Hrun.
  assert (Hevs : evs = []).
  { destruct evs as [|e evs]; [done|]. apply Forall_cons in He as [He _].
    destruct He as (f & pid & _ & Hd & _). by rewrite lookup_empty in Hd. }
  subst evs. eexists rows, _, _, _. split; [exact Hrun|]. split; [exact Hn|].
  split; [|by split]. intros r Hrin. rewrite Forall_forall in Hr.
  destruct (Hr r Hrin) as [Hrow|[_ Hrow]]; [|exact Hrow].
  rewrite Hrow at 1. unfold row_of. by rewrite lookup_empty.
Qed.

(** ** A registry that is not a mapping *)

Lemma get_on_non_mapping (state : pyval) (key : string) :
  (forall d, state <> PDict d) -> py_get state key = inl AttributeError.
Proof. intros Hnd. destruct state; try reflexivity. by destruct (Hnd d). Qed.

Lemma stop_on_non_mapping (name : string) (w : world K) (state : pyval) :
  registry w = inr state -> (forall d, state <> PDict d) ->
  stop name w = (inl AttributeError, w).
Proof.
  intros Hreg Hnd. unfold stop. unfold bind at 1.
  rewrite (registry_load _ _ Hreg). unfold bind at 1. unfold lift.
  by rewrite (get_on_non_mapping state name Hnd).
Qed.

(** X15.  [stop] and [delete_script] on a registry that is not a mapping.  When
    the registry file decodes to anything but a mapping, both raise
    [AttributeError] and change nothing: in particular [delete_script]
    removes neither the script nor its log. *)
Theorem non_mapping_blocks_stop_and_delete (name : string) (w : world K)
    (state : pyval) :
  registry w = inr state ->
  (forall d, state <> PDict d) ->
  stop name w = (inl AttributeError, w) /\
  delete_script name w = (inl AttributeError, w).
Proof.
  intros Hreg Hnd. split; [by apply (stop_on_non_mapping name w state)|].
  unfold delete_script. unfold bind at 1.
  by rewrite (stop_on_non_mapping name w state Hreg Hnd).
Qed.

(** X6.  [index] on a registry that is not a mapping.  With at least one
    script listed, [index] raises [AttributeError] at the first
    [state.get], before anything is written; with none listed the loop does
    not run, the page is empty and the value is written back as it is. *)
Theorem index_on_non_mapping (w : world K) (state : pyval) :
  registry w = inr state ->
  (forall d, state <> PDict d) ->
  (listed w <> [] -> index w = (inl AttributeError, w)) /\
  (listed w = [] ->
   exists disk cpu w',
     index w = (inr (Rendered [] disk cpu None None), w') /\
     pid_file w' = Document state).
Proof.
  intros Hreg Hnd. split.
  - destruct (listed w) as [|f files] eqn:Hl; [done|]. intros _.
    unfold listed in Hl. unfold index. unfold bind at 1.
    rewrite (registry_load _ _ Hreg). unfold bind at 1. unfold list_scripts.
    rewrite Hl. unfold bind at 1. rewrite for_each_cons.
    unfold index_body, bind at 1. unfold lift.
    by rewrite (get_on_non_mapping state f Hnd).
  - intros Hl. unfold listed in Hl. unfold index. unfold bind at 1.
    rewrite (registry_load _ _ Hreg). unfold bind at 1. unfold list_scripts.
    rewrite Hl. unfold bind at 1. simpl. unfold ret at 1.
    unfold bind at 1. rewrite save_state_run. simpl.
    unfold bind, get_kernel, ret. simpl. eauto.
Qed.


(** ** The listing *)

Lemma length_append (p q : string) :
  String.length (p +:+ q) = (String.length p + String.length q)%nat.
Proof. induction p as [|c p IH]; simpl; [done|]. by rewrite IH. Qed.

Lemma substring_all (q : string) : substring 0 (String.length q) q = q.
Proof. induction q as [|c q IH]; simpl; [done|]. by rewrite IH. Qed.

Lemma substring_append (p q : string) :
  substring (String.length p) (String.length q) (p +:+ q) = q.
Proof. induction p as [|c p IH]; simpl; [apply substring_all|exact IH]. Qed.

Lemma substring_split (s : string) :
  forall n, (n <= String.length s)%nat ->
  s = substring 0 n s +:+ substring n (String.length s - n) s.
Proof.
  induction s as [|c s IH]; intros n Hn; simpl in *.
  - by destruct n.
  - destruct n as [|n]; simpl.
    + by rewrite substring_all.
    + change (String c s = String c (substring 0 n s +:+
                substring n (String.length s - n) s)).
      f_equal. apply IH. lia.
Qed.

(** [endswith] is the suffix test. *)
Lemma endswith_spec (s suffix : string) :
  endswith s suffix = true <-> exists stem, s = stem +:+ suffix.
Proof.
  unfold endswith. rewrite andb_true_iff, Nat.leb_le, String.eqb_eq. split.
  - intros [Hle Hsub].
    exists (substring 0 (String.length s - String.length suffix) s).
    pose proof (substring_split s (String.length s - String.length suffix))
      as Hs.
    replace (String.length s - (String.length s - String.length suffix))%nat
      with (String.length suffix) in Hs by lia.
    rewrite Hsub in Hs. apply Hs. lia.
  - intros [stem ->]. rewrite length_append. split; [lia|].
    replace (String.length stem + String.length suffix - String.length suffix)%nat
      with (String.length stem) by lia.
    apply substring_append.
Qed.

Lemma insert_sorted_perm (x : string) (l : list string) :
  insert_sorted x l ≡ₚ x :: l.
Proof.
  induction l as [|y l IH]; simpl; [done|].
  destruct (String.leb x y); [done|]. rewrite IH. apply perm_swap.
Qed.

Lemma sorted_perm (l : list string) : sorted l ≡ₚ l.
Proof.
  induction l as [|x l IH]; simpl; [done|].
  rewrite insert_sorted_perm. by rewrite IH.
Qed.

Lemma insert_sorted_Sorted (x : string) (l : list string) :
  Sorted (fun a b => String.leb a b = true) l ->
  Sorted (fun a b => String.leb a b = true) (insert_sorted x l).
Proof.
  induction l as [|y l IH]; intros Hs; simpl.
  - by repeat constructor.
  - destruct (String.leb x y) eqn:Hxy.
    + constructor; [done|]. by constructor.
    + apply Sorted_inv in Hs as [Hs Hhd]. constructor; [by apply IH|].
      assert (Hyx : String.leb y x = true)
        by (destruct (String.leb_total x y); congruence).
      destruct l as [|z l]; simpl.
      * by constructor.
      * destruct (String.leb x z); constructor; [done|].
        by apply HdRel_inv in Hhd.
Qed.

Lemma sorted_Sorted (l : list string) :
  Sorted (fun a b => String.leb a b = true) (sorted l).
Proof.
  induction l as [|x l IH]; simpl; [constructor|]. by apply insert_sorted_Sorted.
Qed.

Lemma listed_elem (w : world K) (f : string) :
  f ∈ listed w <-> f ∈ scripts_dir w /\ endswith f ".py" = true.
Proof.
  unfold listed. rewrite sorted_perm. rewrite !list_elem_of_In, filter_In.
  reflexivity.
Qed.

Lemma row_of_name (k : K) (d : gmap string pyval) (f : string) :
  r_name (row_of k d f) = f.
Proof.
  unfold row_of.
  by destruct (if truthy (default PNone (d !! f))
               then probe k (default PNone (d !! f))
               else inr ("Stopped", PInt 0, PInt 0)) as [e|[[st c] m]].
Qed.

(** X7.  What the pages list.  On a registry that is a mapping and probes that
    answer, and when the log of the target of [logs] can be read, the rows
    of [index] and of [logs] name the same scripts, in nondecreasing order of
    name; they are the entries of the scripts directory whose name ends in
    ".py", each once per entry; so a script has a row exactly when it is in
    the directory under a name of the form [stem.py]. *)
Theorem pages_list_py_sorted (target : string) (w : world K)
    (d : gmap string pyval) (content : string) :
  registry w = inr (PDict d) ->
  answers (kernel w) d (listed w) ->
  fst (read_log target w) = inr content ->
  exists rows rows' disk cpu name,
    fst (index w) = inr (Rendered rows disk cpu None None) /\
    fst (logs target w) = inr (Rendered rows' disk cpu name (Some content)) /\
    map r_name rows' = map r_name rows /\
    Sorted (fun a b => String.leb a b = true) (map r_name rows) /\
    map r_name rows ≡ₚ
      List.filter (fun f => endswith f ".py") (scripts_dir w) /\
    (forall f, f ∈ map r_name rows <->
               f ∈ scripts_dir w /\ exists stem, f = stem +:+ ".py").
Proof.
  intros Hreg Ha Hread.
  destruct (index_run w d Hreg Ha) as (rows & evs & Hrun & Hn & _).
  destruct (logs_run target w d content Hreg Ha Hread)
    as (name & evs' & Hrun' & _).
  rewrite Hrun, Hrun'. simpl.
  eexists rows, _, _, _, _. split; [reflexivity|]. split; [reflexivity|].
  rewrite Hn. split.
  { rewrite map_map. erewrite map_ext; [apply map_id|].
    intros f. apply row_of_name. }
  split; [apply sorted_Sorted|]. split; [apply sorted_perm|].
  intros f. rewrite listed_elem, endswith_spec. reflexivity.
Qed.


(** ** The log pane *)

Lemma last_lines_suffix (n : nat) (lines : list string) :
  exists earlier, lines = earlier ++ last_lines n lines.
Proof.
  exists (take (List.length lines - n) lines). unfold last_lines.
  symmetry. apply firstn_skipn.
Qed.

Lemma last_lines_length (n : nat) (lines : list string) :
  List.length (last_lines n lines) = Nat.min n (List.length lines).
Proof. unfold last_lines. rewrite length_skipn. lia. Qed.

(** X9.  The log pane of [logs].  On a registry that is a mapping and probes
    that answer, [logs] titles its page with the target, or with
    ["PIP INSTALL LOGS"] for the target ["pip_install"], and reads the file
    [target.log].  When there is no such file the text is ["No logs yet."].
    When the file is there and its bytes decode, the text is its last lines
    joined: all of them when there are at most 100, else exactly the final
    100.  When the bytes do not decode, [logs] raises [UnicodeDecodeError]
    and nothing has been done. *)
Theorem logs_shows_last_lines (target : string) (w : world K)
    (d : gmap string pyval) :
  registry w = inr (PDict d) ->
  answers (kernel w) d (listed w) ->
  let title := if String.eqb target "pip_install"
               then "PIP INSTALL LOGS" else target in
  match logs_dir w !! (target +:+ ".log") with
  | None =>
      exists rows disk cpu,
        fst (logs target w) =
          inr (Rendered rows disk cpu (Some title) (Some "No logs yet."))
  | Some lines =>
      if utf8_valid (String.concat "" lines)
      then
        exists rows disk cpu shown earlier,
          fst (logs target w) =
            inr (Rendered rows disk cpu (Some title)
                          (Some (String.concat "" shown))) /\
          lines = earlier ++ shown /\
          List.length shown = Nat.min 100 (List.length lines)
      else logs target w = (inl UnicodeDecodeError, w)
  end.
Proof.
  intros Hreg Ha title.
  destruct (logs_unfold target w d Hreg Ha) as (evs & Hrun & _).
  unfold read_log in Hrun. simpl in Hrun.
  change (log_name target) with (target +:+ ".log") in Hrun.
  destruct (logs_dir w !! (target +:+ ".log")) as [lines|].
  - destruct (utf8_valid (String.concat "" lines)); [|exact Hrun].
    destruct (last_lines_suffix 100 lines) as [earlier Hsplit].
    rewrite Hrun. simpl. eexists _, _, _, (last_lines 100 lines), earlier.
    split; [reflexivity|]. split; [exact Hsplit|]. apply last_lines_length.
  - rewrite Hrun. simpl. eauto.
Qed.

(** ** Who touches which slot *)

Lemma entry_same_file (g : string) (w w' : world K) :
  pid_file w' = pid_file w -> entry g w' = entry g w.
Proof.
  intros Hf. unfold entry, registry. rewrite !load_state_run. simpl.
  by rewrite Hf.
Qed.

Lemma registry_cases (w : world K) :
  (exists d, registry w = inr (PDict d)) \/
  (exists state, registry w = inr state /\ forall d, state <> PDict d).
Proof.
  unfold registry. rewrite load_state_run. simpl.
  destruct (pid_file w) as [ | | |v]; try (left; by eexists).
  destruct v; try (right; eexists; split; [reflexivity|done]).
  left. by eexists.
Qed.

Lemma delete_script_on_non_mapping (name : string) (w : world K) (state : pyval) :
  registry w = inr state -> (forall d, state <> PDict d) ->
  delete_script name w = (inl AttributeError, w).
Proof.
  intros Hreg Hnd. unfold delete_script. unfold bind at 1.
  by rewrite (stop_on_non_mapping name w state Hreg Hnd).
Qed.

(** X16.  Every handler minds its own slot.  In every world, [stop], [start]
    and [delete_script] called for one script leave the slot of every other
    script as it was, whether they return or raise. *)
Theorem other_slots_untouched (name g : string) (w : world K) :
  g <> name ->
  entry g (snd (stop name w)) = entry g w /\
  entry g (snd (start name w)) = entry g w /\
  entry g (snd (delete_script name w)) = entry g w.
Proof.
  intros Hne.
  destruct (registry_cases w) as [[d Hreg]|(state & Hreg & Hnd)].
  - assert (He : entry g w = d !! g) by (unfold entry; by rewrite Hreg).
    assert (Hstop : forall w1 : world K,
              registry w1 = inr (PDict (if truthy (default PNone (d !! name))
                                        then delete name d else d)) ->
              entry g w1 = d !! g).
    { intros w1 Hreg1. unfold entry. rewrite Hreg1.
      destruct (truthy (default PNone (d !! name))); [|done].
      by apply lookup_delete_ne. }
    destruct (stop_run name w d Hreg) as (w1 & Hrun & _ & _ & Hreg1).
    split; [|split].
    + rewrite Hrun. simpl. rewrite He. by apply Hstop.
    + rewrite (start_run name w (PDict d) Hreg). cbv zeta.
      destruct (running_guard (kernel w) (PDict d) name) as [e|[|]]; simpl;
        try apply entry_logged.
      destruct (popen (kernel w) (argv_of name)) as [k' [e|p]]; simpl.
      * by apply entry_same_file.
      * erewrite entry_document by reflexivity.
        rewrite lookup_insert_ne by done. by rewrite He.
    + rewrite (delete_script_after_stop name w w1 _ _ Hrun Hreg1). simpl.
      rewrite He, <- (Hstop w1 Hreg1).
      set (d1 := if truthy (default PNone (d !! name)) then delete name d else d)
        in *.
      destruct (d1 !! name) as [v|] eqn:Hd1.
      * erewrite entry_document by reflexivity.
        rewrite lookup_delete_ne by done. unfold entry. by rewrite Hreg1.
      * by apply entry_same_file.
  - split; [|split].
    + by rewrite (stop_on_non_mapping name w state Hreg Hnd).
    + rewrite (start_run name w state Hreg). cbv zeta.
      destruct (running_guard (kernel w) state name) as [e|[|]]; simpl;
        try apply entry_logged.
      destruct (popen (kernel w) (argv_of name)) as [k' [e|p]]; simpl.
      * by apply entry_same_file.
      * destruct state; simpl; try by apply entry_same_file.
        by destruct (Hnd d).
    + by rewrite (delete_script_on_non_mapping name w state Hreg Hnd).
Qed.

(** ** Stop on a slot that is not an integer *)

(** X14.  A truthy slot that holds no integer (a string, a list, a float).  On
    a registry that is a mapping, [stop] sends no signal at all, the
    [TypeError] of [os.kill] being swallowed, leaves the kernel as it is,
    and still clears the slot and saves. *)
Theorem stop_clears_non_integer_slot (name : string) (w : world K)
    (d : gmap string pyval) (pid : pyval) :
  registry w = inr (PDict d) ->
  d !! name = Some pid ->
  truthy pid = true ->
  as_int pid = None ->
  stop name w =
  (inr (Redirect "/"),
   World (kernel w) (Document (PDict (delete name d))) (scripts_dir w)
         (logs_dir w) (trace w ++ [EvSave (PDict (delete name d))])).
Proof.
  intros Hreg Hd Ht Hz.
  unfold stop. unfold bind at 1. rewrite (registry_dict _ _ Hreg).
  unfold bind at 1. unfold lift, py_get. simpl. rewrite Hd. simpl. rewrite Ht.
  unfold terminate, os_kill. rewrite Hz. reflexivity.
Qed.

(** ** Delete and the listing *)

Lemma delete_script_dir (name : string) (w : world K) (d : gmap string pyval) :
  registry w = inr (PDict d) ->
  scripts_dir (snd (delete_script name w)) =
  List.filter (fun f => negb (String.eqb name f)) (scripts_dir w).
Proof.
  intros Hreg.
  destruct (stop_run name w d Hreg) as (w1 & Hstop & Hsd & _ & Hreg1).
  rewrite (delete_script_after_stop name w w1 _ _ Hstop Hreg1). simpl.
  rewrite Hsd.
  destruct (existsb (String.eqb name) (scripts_dir w)) eqn:Hex; [done|].
  symmetry. apply forallb_filter_id. apply forallb_forall. intros f Hin.
  destruct (String.eqb name f) eqn:Hf; [|done].
  assert (existsb (String.eqb name) (scripts_dir w) = true); [|congruence].
  apply existsb_exists. eauto.
Qed.

(** X17.  A deleted script is off the pages.  On a registry that is a mapping,
    after [delete_script] the script is no longer in the scripts directory,
    so no page lists it, and the other scripts are listed exactly as
    before. *)
Theorem deleted_script_unlisted (name : string) (w : world K)
    (d : gmap string pyval) :
  registry w = inr (PDict d) ->
  let w' := snd (delete_script name w) in
  (name ∉ scripts_dir w') /\
  (name ∉ listed w') /\
  (forall g, g <> name -> (g ∈ listed w' <-> g ∈ listed w)).
Proof.
  intros Hreg. cbv zeta.
  assert (Hdir : forall g, g ∈ scripts_dir (snd (delete_script name w)) <->
                           g ∈ scripts_dir w /\ g <> name).
  { intros g. rewrite (delete_script_dir name w d Hreg).
    rewrite !list_elem_of_In, filter_In, negb_true_iff.
    destruct (String.eqb_spec name g) as [->|Hne]; split;
      intros [Hin Hg]; try done; split; congruence. }
  split; [|split].
  - rewrite Hdir. by intros [_ Hne].
  - rewrite listed_elem, Hdir. by intros [[_ Hne] _].
  - intros g Hne. rewrite !listed_elem, Hdir. tauto.
Qed.


(** X18.  [stop] deletes no file.  In every world, whatever the slot holds and
    whether [stop] returns or raises, the scripts directory and the logs
    directory are what they were. *)
Theorem stop_keeps_files (name : string) (w : world K) :
  scripts_dir (snd (stop name w)) = scripts_dir w /\
  logs_dir (snd (stop name w)) = logs_dir w.
Proof.
  destruct (registry_cases w) as [[d Hreg]|(state & Hreg & Hnd)].
  - destruct (stop_run name w d Hreg) as (w1 & Hrun & Hsd & Hld & _).
    rewrite Hrun. by split.
  - by rewrite (stop_on_non_mapping name w state Hreg Hnd).
Qed.

End Properties.

(** * The handlers run on the concrete machine *)

(** C4, the claim as stated fails: a registry file holding the well-formed
    JSON document [[]] is not a registry, yet [load_state] hands the list to
    its caller instead of an empty mapping, and the next [state.get] raises. *)
Lemma load_state_keeps_non_mapping :
  let w := Machine.boot Machine.idle (Document (PList [])) ["job.py"] in
  fst (load_state w) = inr (PList []) /\
  fst (load_state w) <> inr (PDict ∅) /\
  fst (index w) = inl AttributeError.
Proof. repeat split; [discriminate]. Qed.

(** C2, the claim as stated fails: with the registry [{"job.py": 0}], [stop]
    completes and the slot of [job.py] is still there. *)
Lemma stop_keeps_falsy_slot :
  let w := Machine.job Machine.idle (PInt 0) in
  fst (stop "job.py" w) = inr (Redirect "/") /\
  entry "job.py" (snd (stop "job.py" w)) = Some (PInt 0) /\
  snd (stop "job.py" w) = w.
Proof. repeat split. Qed.

(** C2 at work: process 7 belongs to another user, SIGTERM is refused, and
    the slot is cleared and saved all the same. *)
Lemma stop_clears_truthy_slot_witness :
  let w := Machine.job (Machine.with_proc 7 Machine.alien Machine.idle) (PInt 7) in
  let d : gmap string pyval := {["job.py" := PInt 7]} in
  registry w = inr (PDict d) /\
  d !! "job.py" = Some (PInt 7) /\
  truthy (PInt 7) = true /\
  snd (kill (kernel w) 7 SIGTERM) = Some PermissionError /\
  exists w',
    stop "job.py" w = (inr (Redirect "/"), w') /\
    pid_file w' = Document (PDict (delete "job.py" d)) /\
    entry "job.py" w' = None /\
    last (trace w') = Some (EvSave (PDict (delete "job.py" d))).
Proof.
  cbv zeta. split; [reflexivity|]. split; [reflexivity|]. split; [reflexivity|].
  split; [reflexivity|].
  apply (stop_clears_truthy_slot "job.py" _ _ (PInt 7)); reflexivity.
Defined.

(** C3, the claim as stated fails, twice: a slot holding 0 gets no signal at
    all; and when SIGTERM is refused (process 7 is another user's), [stop]
    does not wait and sends no SIGKILL although the process is still there. *)
Lemma stop_skips_protocol :
  trace (snd (stop "job.py" (Machine.job Machine.idle (PInt 0)))) = [] /\
  let w := Machine.job (Machine.with_proc 7 Machine.alien Machine.idle) (PInt 7) in
  trace (snd (stop "job.py" w)) = [EvKill 7 SIGTERM; EvSave (PDict ∅)] /\
  pid_alive (kernel (snd (stop "job.py" w))) 7 = true.
Proof. repeat split. Qed.

(** C3 at work: process 7 ignores SIGTERM, so it is there after the grace
    period and gets SIGKILL. *)
Lemma stop_escalates_witness :
  let w := Machine.job (Machine.with_proc 7 Machine.stubborn Machine.idle) (PInt 7) in
  let d : gmap string pyval := {["job.py" := PInt 7]} in
  registry w = inr (PDict d) /\
  d !! "job.py" = Some (PInt 7) /\
  truthy (PInt 7) = true /\
  as_int (PInt 7) = Some 7 /\
  trace (snd (stop "job.py" w)) =
    [EvKill 7 SIGTERM; EvSleep 1; EvPidExists 7; EvKill 7 SIGKILL;
     EvSave (PDict ∅)].
Proof.
  cbv zeta. split; [reflexivity|]. split; [reflexivity|]. split; [reflexivity|].
  split; [reflexivity|].
  rewrite (stop_escalates "job.py" _ {["job.py" := PInt 7]} (PInt 7) 7);
    reflexivity.
Defined.

(** C7, the claim as stated fails: with the registry [{"job.py": 0}] two
    calls of [stop] leave the slot of [job.py] in place. *)
Lemma stop_twice_keeps_falsy_slot :
  let w := Machine.job Machine.idle (PInt 0) in
  let w1 := snd (stop "job.py" w) in
  let w2 := snd (stop "job.py" w1) in
  fst (stop "job.py" w1) = inr (Redirect "/") /\
  entry "job.py" w1 = Some (PInt 0) /\
  entry "job.py" w2 = Some (PInt 0).
Proof. repeat split. Qed.

(** C7 at work on a process that heeds SIGTERM. *)
Lemma stop_twice_witness :
  let w := Machine.job (Machine.with_proc 7 Machine.worker Machine.idle) (PInt 7) in
  let d : gmap string pyval := {["job.py" := PInt 7]} in
  let w1 := snd (stop "job.py" w) in
  let w2 := snd (stop "job.py" w1) in
  registry w = inr (PDict d) /\
  (forall pid, d !! "job.py" = Some pid -> truthy pid = true) /\
  fst (stop "job.py" w) = inr (Redirect "/") /\
  fst (stop "job.py" w1) = inr (Redirect "/") /\
  entry "job.py" w1 = None /\
  entry "job.py" w2 = None /\
  w2 = w1 /\
  (d !! "job.py" = None -> w1 = w).
Proof.
  cbv zeta. split; [reflexivity|].
  assert (Hslot : forall pid,
            ({["job.py" := PInt 7]} : gmap string pyval) !! "job.py" = Some pid ->
            truthy pid = true).
  { intros pid Hd. vm_compute in Hd. by injection Hd as <-. }
  split; [exact Hslot|].
  apply (stop_twice "job.py" _ {["job.py" := PInt 7]}); [reflexivity|exact Hslot].
Defined.

(** C1, the claim as stated fails, in four ways.  The registry is
    [{"job.py": 4821}] and there is no process 4821: [logs] reports
    "Stopped" but neither clears the slot nor writes the registry.  A script
    that [index] does not list ([job.sh]) keeps its stale slot through
    [index].  A slot holding 0, which is no process either, is kept by
    [index].  A slot holding -5 makes [index] raise, and nothing is cleared. *)
Lemma stale_slot_survives_reads :
  let w := Machine.job Machine.idle (PInt 4821) in
  let w2 := Machine.boot Machine.idle (Document (PDict {["job.sh" := PInt 4821]}))
                         ["job.sh"] in
  let w3 := Machine.job Machine.idle (PInt 0) in
  let w4 := Machine.job Machine.idle (PInt (-5)) in
  (proc_attach (kernel w) 4821 = Some NoSuchProcess /\
   fst (logs "job.py" w) =
     inr (Rendered [Row "job.py" "Stopped" (PInt 4821) (PInt 0) (PInt 0)]
                   0%Q 0%Q (Some "job.py") (Some "No logs yet.")) /\
   entry "job.py" (snd (logs "job.py" w)) = Some (PInt 4821) /\
   snd (logs "job.py" w) = logged w [EvProcess (PInt 4821)]) /\
  (listed w2 = [] /\
   entry "job.sh" (snd (index w2)) = Some (PInt 4821)) /\
  (proc_attach (kernel w3) 0 = Some NoSuchProcess /\
   entry "job.py" (snd (index w3)) = Some (PInt 0)) /\
  (fst (index w4) = inl ValueError /\
   entry "job.py" (snd (index w4)) = Some (PInt (-5))).
Proof. repeat split. Qed.

(** C1 at work, on the scenario of the specification: the registry is
    [{"job.py": 4821}] and there is no process 4821. *)
Lemma index_heals_stale_slot_witness :
  let w := Machine.job Machine.idle (PInt 4821) in
  let d : gmap string pyval := {["job.py" := PInt 4821]} in
  registry w = inr (PDict d) /\
  answers (kernel w) d (listed w) /\
  "job.py" ∈ listed w /\
  d !! "job.py" = Some (PInt 4821) /\
  0 < 4821 /\
  proc_attach (kernel w) 4821 = Some NoSuchProcess /\
  exists rows disk cpu w',
    index w = (inr (Rendered rows disk cpu None None), w') /\
    (exists r, r ∈ rows /\ r_name r = "job.py") /\
    (forall r, r ∈ rows -> r_name r = "job.py" -> r_status r = "Stopped") /\
    pid_file w' = Document (PDict (pruned (kernel w) d (listed w))) /\
    entry "job.py" w' = None /\
    last (trace w') = Some (EvSave (PDict (pruned (kernel w) d (listed w)))).
Proof.
  cbv zeta.
  assert (Ha : answers (kernel (Machine.job Machine.idle (PInt 4821)))
                 {["job.py" := PInt 4821]}
                 (listed (Machine.job Machine.idle (PInt 4821))))
    by (apply answersb_sound; reflexivity).
  assert (Hin : "job.py" ∈ listed (Machine.job Machine.idle (PInt 4821)))
    by (apply list_elem_of_In; left; reflexivity).
  split; [reflexivity|]. split; [exact Ha|]. split; [exact Hin|].
  split; [reflexivity|]. split; [lia|]. split; [reflexivity|].
  apply (index_heals_stale_slot _ _ "job.py" 4821);
    [reflexivity|exact Ha|exact Hin|reflexivity|lia|reflexivity].
Defined.

(** C5, the claim as stated fails.  Process 7 is a zombie.  When its slot
    belongs to a script that is not listed ([job.sh]), [index] returns a page
    that does not mention it.  When another listed script holds -5, [index]
    raises before it reports anything.  When the log of the target holds a
    byte that is no text, [logs] raises too. *)
Lemma zombie_slot_unreported :
  let m := Machine.with_proc 7 Machine.defunct Machine.idle in
  let w1 := Machine.boot m (Document (PDict {["job.sh" := PInt 7]})) ["job.sh"] in
  let w2 := Machine.boot m
              (Document (PDict {["job.py" := PInt 7; "bad.py" := PInt (-5)]}))
              ["job.py"; "bad.py"] in
  let w3 := World m (Document (PDict {["job.py" := PInt 7]})) ["job.py"]
              {["job.py.log" := [String "255"%char ""]]} [] in
  proc_status m 7 = inr STATUS_ZOMBIE /\
  fst (index w1) = inr (Rendered [] 0%Q 0%Q None None) /\
  fst (index w2) = inl ValueError /\
  fst (logs "job.py" w3) = inl UnicodeDecodeError.
Proof. repeat split. Qed.

(** C5 at work: process 7 is a zombie, the log of the script has one line. *)
Lemma status_read_keeps_zombie_witness :
  let w := World (Machine.with_proc 7 Machine.defunct Machine.idle)
             (Document (PDict {["job.py" := PInt 7]})) ["job.py"]
             {["job.py.log" := ["started"]]} [] in
  let d : gmap string pyval := {["job.py" := PInt 7]} in
  let zrow := Row "job.py" "Zombie" (PInt 7) (PInt 0) (PInt 0) in
  registry w = inr (PDict d) /\
  answers (kernel w) d (listed w) /\
  "job.py" ∈ listed w /\
  d !! "job.py" = Some (PInt 7) /\
  0 < 7 /\
  proc_attach (kernel w) 7 = None /\
  proc_status (kernel w) 7 = inr STATUS_ZOMBIE /\
  fst (read_log "job.py" w) = inr "started" /\
  (exists rows disk cpu w',
     index w = (inr (Rendered rows disk cpu None None), w') /\
     zrow ∈ rows /\
     (forall r, r ∈ rows -> r_name r = "job.py" -> r = zrow) /\
     entry "job.py" w' = Some (PInt 7)) /\
  (exists rows disk cpu name w',
     logs "job.py" w = (inr (Rendered rows disk cpu name (Some "started")), w') /\
     zrow ∈ rows /\
     (forall r, r ∈ rows -> r_name r = "job.py" -> r = zrow) /\
     entry "job.py" w' = Some (PInt 7)).
Proof.
  cbv zeta.
  set (w := World (Machine.with_proc 7 Machine.defunct Machine.idle)
              (Document (PDict {["job.py" := PInt 7]})) ["job.py"]
              {["job.py.log" := ["started"]]} []).
  assert (Ha : answers (kernel w) {["job.py" := PInt 7]} (listed w))
    by (apply answersb_sound; reflexivity).
  assert (Hin : "job.py" ∈ listed w)
    by (apply list_elem_of_In; left; reflexivity).
  split; [reflexivity|]. split; [exact Ha|]. split; [exact Hin|].
  split; [reflexivity|]. split; [lia|]. split; [reflexivity|].
  split; [reflexivity|]. split; [reflexivity|].
  destruct (status_read_keeps_zombie w {["job.py" := PInt 7]} "job.py" 7 "job.py")
    as [Hindex Hlogs];
    [reflexivity|exact Ha|exact Hin|reflexivity|lia|reflexivity|reflexivity|].
  split; [exact Hindex|]. apply Hlogs. reflexivity.
Defined.

(** C6 at work: there is no [python3], the registry is empty. *)
Lemma start_surfaces_spawn_failure_witness :
  let w := Machine.boot Machine.no_python (Document (PDict ∅)) ["job.py"] in
  registry w = inr (PDict ∅) /\
  popen (kernel w) (argv_of "job.py") = (Machine.no_python, inl FileNotFoundError) /\
  running_guard (kernel w) (PDict ∅) "job.py" = inr false /\
  pid_file (snd (start "job.py" w)) = pid_file w /\
  registry (snd (start "job.py" w)) = inr (PDict ∅) /\
  fst (start "job.py" w) = inl FileNotFoundError.
Proof.
  cbv zeta. split; [reflexivity|]. split; [reflexivity|]. split; [reflexivity|].
  destruct (start_surfaces_spawn_failure "job.py"
              (Machine.boot Machine.no_python (Document (PDict ∅)) ["job.py"])
              (PDict ∅) Machine.no_python FileNotFoundError)
    as (Hfile & Hreg & Hexn); [reflexivity|reflexivity|].
  split; [exact Hfile|]. split; [exact Hreg|]. apply Hexn. reflexivity.
Defined.

(** C8 at work: process 7 is alive and well. *)
Lemma start_running_is_noop_witness :
  let w := Machine.job (Machine.with_proc 7 Machine.worker Machine.idle) (PInt 7) in
  let d : gmap string pyval := {["job.py" := PInt 7]} in
  registry w = inr (PDict d) /\
  d !! "job.py" = Some (PInt 7) /\
  probe (kernel w) (PInt 7) =
    inr ("Running", PFloat (5 # 2), PFloat (3145728 # 1048576)) /\
  start "job.py" w = (inr (Redirect "/"), logged w [EvProcess (PInt 7)]).
Proof.
  cbv zeta. split; [reflexivity|]. split; [reflexivity|]. split; [reflexivity|].
  apply (start_running_is_noop "job.py" _ {["job.py" := PInt 7]} (PInt 7)
           (PFloat (5 # 2)) (PFloat (3145728 # 1048576)));
    reflexivity.
Defined.


(** C10, the code at the failing input.  With no slot [start] creates a
    process.  With a slot holding [null] it does not test the value as
    [index], [logs] and [stop] do: it probes it, [psutil] takes [None] for
    the calling process, the supervisor is found running and nothing is
    created.  With a slot holding the empty string the probe raises. *)
Lemma start_probes_falsy_slot :
  let w0 := Machine.boot Machine.idle (Document (PDict ∅)) ["job.py"] in
  let w1 := Machine.job Machine.idle PNone in
  let w2 := Machine.job Machine.idle (PStr "") in
  (truthy PNone = false /\ truthy (PStr "") = false) /\
  (fst (start "job.py" w0) = inr (Redirect "/") /\
   trace (snd (start "job.py" w0)) =
     [EvOpenAppend "logs/job.py.log"; EvPopen ["python3"; "-u"; "scripts/job.py"];
      EvSave (PDict {["job.py" := PInt 4822]})]) /\
  start "job.py" w1 = (inr (Redirect "/"), logged w1 [EvProcess PNone]) /\
  start "job.py" w2 = (inl TypeError, logged w2 [EvProcess (PStr "")]).
Proof. repeat split. Qed.

(** X19 at work on the registry [{"job.py": 0}]. *)
Lemma falsy_slot_is_inert_witness :
  let w := Machine.job Machine.idle (PInt 0) in
  let d : gmap string pyval := {["job.py" := PInt 0]} in
  let blank := Row "job.py" "Stopped" (PStr "-") (PInt 0) (PInt 0) in
  registry w = inr (PDict d) /\
  d !! "job.py" = Some (PInt 0) /\
  truthy (PInt 0) = false /\
  answers (kernel w) d (listed w) /\
  "job.py" ∈ listed w /\
  fst (read_log "job.py" w) = inr "No logs yet." /\
  (exists rows disk cpu w' evs,
      index w = (inr (Rendered rows disk cpu None None), w') /\
      blank ∈ rows /\
      (forall r, r ∈ rows -> r_name r = "job.py" -> r = blank) /\
      trace w' = trace w ++ evs /\
      (EvProcess (PInt 0) ∉ evs) /\
      entry "job.py" w' = Some (PInt 0)) /\
  (exists rows disk cpu name evs,
      logs "job.py" w =
        (inr (Rendered rows disk cpu name (Some "No logs yet.")), logged w evs) /\
      blank ∈ rows /\
      (forall r, r ∈ rows -> r_name r = "job.py" -> r = blank) /\
      (EvProcess (PInt 0) ∉ evs) /\
      entry "job.py" (logged w evs) = Some (PInt 0)) /\
  stop "job.py" w = (inr (Redirect "/"), w) /\
  (entry "job.py" (snd (start "job.py" w)) = Some (PInt 0) \/
   exists p : positive,
     entry "job.py" (snd (start "job.py" w)) = Some (PInt (Z.pos p))) /\
  fst (delete_script "job.py" w) = inr (Redirect "/") /\
  entry "job.py" (snd (delete_script "job.py" w)) = None.
Proof.
  cbv zeta.
  set (w := Machine.job Machine.idle (PInt 0)).
  assert (Ha : answers (kernel w) {["job.py" := PInt 0]} (listed w))
    by (apply answersb_sound; reflexivity).
  assert (Hin : "job.py" ∈ listed w)
    by (apply list_elem_of_In; left; reflexivity).
  split; [reflexivity|]. split; [reflexivity|]. split; [reflexivity|].
  split; [exact Ha|]. split; [exact Hin|]. split; [reflexivity|].
  destruct (falsy_slot_is_inert w {["job.py" := PInt 0]} "job.py" (PInt 0) "job.py")
    as (Hreads & Hstop & Hstart & Hdel); [reflexivity..|].
  destruct (Hreads Ha Hin) as [Hindex Hlogs].
  split; [exact Hindex|]. split; [apply Hlogs; reflexivity|].
  split; [exact Hstop|]. split; [exact Hstart|]. exact Hdel.
Defined.

(** ** Further properties at work *)

(** A successful start over the slot of a zombie: the slot is overwritten. *)
Lemma start_records_child_witness :
  let w := Machine.job (Machine.with_proc 7 Machine.defunct Machine.idle) (PInt 7) in
  let d : gmap string pyval := {["job.py" := PInt 7]} in
  let k' := fst (popen (kernel w) (argv_of "job.py")) in
  registry w = inr (PDict d) /\
  (forall pid, d !! "job.py" = Some pid ->
     exists status cpu mem,
       probe (kernel w) pid = inr (status, cpu, mem) /\ status <> "Running") /\
  popen (kernel w) (argv_of "job.py") = (k', inr 4822%positive) /\
  exists w' evs,
    start "job.py" w = (inr (Redirect "/"), w') /\
    kernel w' = k' /\
    entry "job.py" w' = Some (PInt 4822) /\
    (forall g, g <> "job.py" -> entry g w' = entry g w) /\
    scripts_dir w' = scripts_dir w /\
    logs_dir w' !! log_name "job.py" =
      Some (default [] (logs_dir w !! log_name "job.py")) /\
    Forall is_probe evs /\
    trace w' =
      trace w ++ evs ++
      [EvOpenAppend (path_join LOGS_DIR (log_name "job.py"));
       EvPopen (argv_of "job.py");
       EvSave (PDict (<["job.py" := PInt 4822]> d))].
Proof.
  cbv zeta.
  set (w := Machine.job (Machine.with_proc 7 Machine.defunct Machine.idle) (PInt 7)).
  assert (Hslot : forall pid,
            ({["job.py" := PInt 7]} : gmap string pyval) !! "job.py" = Some pid ->
            exists status cpu mem,
              probe (kernel w) pid = inr (status, cpu, mem) /\ status <> "Running").
  { intros pid Hd. vm_compute in Hd. injection Hd as <-.
    exists "Zombie", (PInt 0), (PInt 0). split; [reflexivity|discriminate]. }
  split; [reflexivity|]. split; [exact Hslot|]. split; [reflexivity|].
  exact (start_records_child "job.py" w {["job.py" := PInt 7]} _ 4822%positive
           eq_refl Hslot eq_refl).
Defined.

(** Start on an empty registry, then stop. *)
Lemma start_then_stop_witness :
  let w := Machine.boot Machine.idle (Document (PDict ∅)) ["job.py"] in
  let d : gmap string pyval := ∅ in
  let k' := fst (popen (kernel w) (argv_of "job.py")) in
  let w1 := snd (start "job.py" w) in
  registry w = inr (PDict d) /\
  (forall pid, d !! "job.py" = Some pid ->
     exists status cpu mem,
       probe (kernel w) pid = inr (status, cpu, mem) /\ status <> "Running") /\
  popen (kernel w) (argv_of "job.py") = (k', inr 4822%positive) /\
  exists w2 evs,
    stop "job.py" w1 = (inr (Redirect "/"), w2) /\
    pid_file w2 = Document (PDict (delete "job.py" d)) /\
    entry "job.py" w2 = None /\
    trace w2 =
      trace w1 ++ EvKill 4822 SIGTERM :: evs ++
      [EvSave (PDict (delete "job.py" d))].
Proof.
  cbv zeta.
  set (w := Machine.boot Machine.idle (Document (PDict ∅)) ["job.py"]).
  assert (Hslot : forall pid,
            (∅ : gmap string pyval) !! "job.py" = Some pid ->
            exists status cpu mem,
              probe (kernel w) pid = inr (status, cpu, mem) /\ status <> "Running").
  { intros pid Hd. by rewrite lookup_empty in Hd. }
  split; [reflexivity|]. split; [exact Hslot|]. split; [reflexivity|].
  exact (start_then_stop "job.py" w ∅ _ 4822%positive eq_refl Hslot eq_refl).
Defined.

(** Start twice on an empty registry: the child of the first is running. *)
Lemma start_twice_spawns_once_witness :
  let w := Machine.boot Machine.idle (Document (PDict ∅)) ["job.py"] in
  let d : gmap string pyval := ∅ in
  let k' := fst (popen (kernel w) (argv_of "job.py")) in
  let w1 := snd (start "job.py" w) in
  registry w = inr (PDict d) /\
  (forall pid, d !! "job.py" = Some pid ->
     exists status cpu mem,
       probe (kernel w) pid = inr (status, cpu, mem) /\ status <> "Running") /\
  popen (kernel w) (argv_of "job.py") = (k', inr 4822%positive) /\
  probe k' (PInt 4822) = inr ("Running", PFloat 0, PFloat (0 # 1048576)) /\
  start "job.py" w1 = (inr (Redirect "/"), logged w1 [EvProcess (PInt 4822)]).
Proof.
  cbv zeta.
  set (w := Machine.boot Machine.idle (Document (PDict ∅)) ["job.py"]).
  assert (Hslot : forall pid,
            (∅ : gmap string pyval) !! "job.py" = Some pid ->
            exists status cpu mem,
              probe (kernel w) pid = inr (status, cpu, mem) /\ status <> "Running").
  { intros pid Hd. by rewrite lookup_empty in Hd. }
  split; [reflexivity|]. split; [exact Hslot|]. split; [reflexivity|].
  split; [reflexivity|].
  exact (start_twice_spawns_once "job.py" w ∅ _ 4822%positive
           (PFloat 0) (PFloat (0 # 1048576)) eq_refl Hslot eq_refl eq_refl).
Defined.

(** Start when the registry file holds [[]]. *)
Lemma start_on_list_registry_witness :
  let w := Machine.boot Machine.idle (Document (PList [])) ["job.py"] in
  let k' := fst (popen (kernel w) (argv_of "job.py")) in
  registry w = inr (PList []) /\
  existsb (str_eq "job.py") [] = false /\
  popen (kernel w) (argv_of "job.py") = (k', inr 4822%positive) /\
  exists w',
    start "job.py" w = (inl TypeError, w') /\
    kernel w' = k' /\
    pid_file w' = pid_file w /\
    last (trace w') = Some (EvPopen (argv_of "job.py")).
Proof.
  cbv zeta. split; [reflexivity|]. split; [reflexivity|]. split; [reflexivity|].
  exact (start_on_list_registry "job.py"
           (Machine.boot Machine.idle (Document (PList [])) ["job.py"])
           [] _ 4822%positive eq_refl eq_refl eq_refl).
Defined.

(** [index] with a running script and a script that is not listed. *)
Lemma index_spares_witness :
  let w := Machine.boot (Machine.with_proc 7 Machine.worker Machine.idle)
             (Document (PDict {["job.py" := PInt 7; "job.sh" := PInt 4821]}))
             ["job.py"; "job.sh"] in
  let d : gmap string pyval := {["job.py" := PInt 7; "job.sh" := PInt 4821]} in
  let w' := snd (index w) in
  registry w = inr (PDict d) /\
  answers (kernel w) d (listed w) /\
  (forall g v, entry g w' = Some v -> d !! g = Some v) /\
  (forall g, g ∉ listed w -> entry g w' = d !! g) /\
  (forall g pid status cpu mem,
     d !! g = Some pid ->
     probe (kernel w) pid = inr (status, cpu, mem) ->
     status <> "Stopped" ->
     entry g w' = Some pid).
Proof.
  cbv zeta.
  set (w := Machine.boot (Machine.with_proc 7 Machine.worker Machine.idle)
              (Document (PDict {["job.py" := PInt 7; "job.sh" := PInt 4821]}))
              ["job.py"; "job.sh"]).
  assert (Ha : answers (kernel w) {["job.py" := PInt 7; "job.sh" := PInt 4821]}
                 (listed w))
    by (apply answersb_sound; reflexivity).
  split; [reflexivity|]. split; [exact Ha|].
  exact (index_spares w {["job.py" := PInt 7; "job.sh" := PInt 4821]} eq_refl Ha).
Defined.

(** [index] twice on the scenario of a stale slot. *)
Lemma index_twice_witness :
  let w := Machine.job Machine.idle (PInt 4821) in
  let d : gmap string pyval := {["job.py" := PInt 4821]} in
  let w1 := snd (index w) in
  registry w = inr (PDict d) /\
  answers (kernel w) d (listed w) /\
  (exists rows disk cpu, fst (index w1) = inr (Rendered rows disk cpu None None)) /\
  pid_file (snd (index w1)) = pid_file w1.
Proof.
  cbv zeta.
  set (w := Machine.job Machine.idle (PInt 4821)).
  assert (Ha : answers (kernel w) {["job.py" := PInt 4821]} (listed w))
    by (apply answersb_sound; reflexivity).
  split; [reflexivity|]. split; [exact Ha|].
  exact (index_twice w {["job.py" := PInt 4821]} eq_refl Ha).
Defined.

(** [index] on a registry file that cannot be decoded. *)
Lemma index_repairs_registry_witness :
  let w := Machine.boot Machine.idle Malformed ["job.py"] in
  (pid_file w = Absent \/ pid_file w = Malformed) /\
  exists rows disk cpu w',
    index w = (inr (Rendered rows disk cpu None None), w') /\
    map r_name rows = listed w /\
    (forall r, r ∈ rows ->
       r = Row (r_name r) "Stopped" (PStr "-") (PInt 0) (PInt 0)) /\
    pid_file w' = Document (PDict ∅) /\
    trace w' = trace w ++ [EvSave (PDict ∅)].
Proof.
  cbv zeta. split; [right; reflexivity|].
  apply (index_repairs_registry (Machine.boot Machine.idle Malformed ["job.py"])).
  right. reflexivity.
Defined.

(** [stop] and [delete_script] when the registry file holds [[]]. *)
Lemma non_mapping_blocks_stop_and_delete_witness :
  let w := Machine.boot Machine.idle (Document (PList [])) ["job.py"] in
  registry w = inr (PList []) /\
  (forall d, PList [] <> PDict d) /\
  stop "job.py" w = (inl AttributeError, w) /\
  delete_script "job.py" w = (inl AttributeError, w).
Proof.
  cbv zeta.
  assert (Hnd : forall d, PList [] <> PDict d) by (intros d; discriminate).
  split; [reflexivity|]. split; [exact Hnd|].
  exact (non_mapping_blocks_stop_and_delete "job.py"
           (Machine.boot Machine.idle (Document (PList [])) ["job.py"])
           (PList []) eq_refl Hnd).
Defined.

(** [index] when the registry file holds [[]]. *)
Lemma index_on_non_mapping_witness :
  let w := Machine.boot Machine.idle (Document (PList [])) ["job.py"] in
  registry w = inr (PList []) /\
  (forall d, PList [] <> PDict d) /\
  listed w <> [] /\
  index w = (inl AttributeError, w).
Proof.
  cbv zeta.
  assert (Hnd : forall d, PList [] <> PDict d) by (intros d; discriminate).
  split; [reflexivity|]. split; [exact Hnd|]. split; [discriminate|].
  destruct (index_on_non_mapping
              (Machine.boot Machine.idle (Document (PList [])) ["job.py"])
              (PList []) eq_refl Hnd) as [Hraise _].
  apply Hraise. discriminate.
Defined.

(** The pages of a directory holding [b.py], [notes.txt] and [a.py]. *)
Lemma pages_list_py_sorted_witness :
  let w := Machine.boot Machine.idle (Document (PDict ∅))
             ["b.py"; "notes.txt"; "a.py"] in
  let d : gmap string pyval := ∅ in
  registry w = inr (PDict d) /\
  answers (kernel w) d (listed w) /\
  fst (read_log "a.py" w) = inr "No logs yet." /\
  listed w = ["a.py"; "b.py"] /\
  exists rows rows' disk cpu name,
    fst (index w) = inr (Rendered rows disk cpu None None) /\
    fst (logs "a.py" w) =
      inr (Rendered rows' disk cpu name (Some "No logs yet.")) /\
    map r_name rows' = map r_name rows /\
    Sorted (fun a b => String.leb a b = true) (map r_name rows) /\
    map r_name rows ≡ₚ
      List.filter (fun f => endswith f ".py") (scripts_dir w) /\
    (forall f, f ∈ map r_name rows <->
               f ∈ scripts_dir w /\ exists stem, f = stem +:+ ".py").
Proof.
  cbv zeta.
  set (w := Machine.boot Machine.idle (Document (PDict ∅))
              ["b.py"; "notes.txt"; "a.py"]).
  assert (Ha : answers (kernel w) ∅ (listed w))
    by (apply answersb_sound; reflexivity).
  split; [reflexivity|]. split; [exact Ha|]. split; [reflexivity|].
  split; [reflexivity|].
  exact (pages_list_py_sorted "a.py" w ∅ "No logs yet." eq_refl Ha eq_refl).
Defined.

(** The log pane of a script with a two-line log, and of one whose log
    holds a byte that is no text. *)
Lemma logs_shows_last_lines_witness :
  let w := World Machine.idle (Document (PDict ∅)) ["job.py"]
             {["job.py.log" := ["one"; "two"]; 
               "bad.py.log" := [String "255"%char ""]]} [] in
  let d : gmap string pyval := ∅ in
  registry w = inr (PDict d) /\
  answers (kernel w) d (listed w) /\
  (exists rows disk cpu shown earlier,
     fst (logs "job.py" w) =
       inr (Rendered rows disk cpu (Some "job.py")
                     (Some (String.concat "" shown))) /\
     ["one"; "two"] = earlier ++ shown /\
     List.length shown = Nat.min 100 (List.length ["one"; "two"])) /\
  logs "bad.py" w = (inl UnicodeDecodeError, w).
Proof.
  cbv zeta.
  set (w := World Machine.idle (Document (PDict ∅)) ["job.py"]
              {["job.py.log" := ["one"; "two"];
                "bad.py.log" := [String "255"%char ""]]} []).
  assert (Ha : answers (kernel w) ∅ (listed w))
    by (apply answersb_sound; reflexivity).
  split; [reflexivity|]. split; [exact Ha|]. split.
  - exact (logs_shows_last_lines "job.py" w ∅ eq_refl Ha).
  - exact (logs_shows_last_lines "bad.py" w ∅ eq_refl Ha).
Defined.

(** Two scripts: what is done for [job.py] leaves the slot of [other.py]. *)
Lemma other_slots_untouched_witness :
  let w := Machine.boot (Machine.with_proc 7 Machine.worker Machine.idle)
             (Document (PDict {["job.py" := PInt 7; "other.py" := PInt 9]}))
             ["job.py"; "other.py"] in
  "other.py" <> "job.py" /\
  entry "other.py" w = Some (PInt 9) /\
  entry "other.py" (snd (stop "job.py" w)) = entry "other.py" w /\
  entry "other.py" (snd (start "job.py" w)) = entry "other.py" w /\
  entry "other.py" (snd (delete_script "job.py" w)) = entry "other.py" w.
Proof.
  cbv zeta. split; [discriminate|]. split; [reflexivity|].
  apply (other_slots_untouched "job.py" "other.py"). discriminate.
Defined.

(** [stop] on a slot holding the string ["abc"]. *)
Lemma stop_clears_non_integer_slot_witness :
  let w := Machine.job Machine.idle (PStr "abc") in
  let d : gmap string pyval := {["job.py" := PStr "abc"]} in
  registry w = inr (PDict d) /\
  d !! "job.py" = Some (PStr "abc") /\
  truthy (PStr "abc") = true /\
  as_int (PStr "abc") = None /\
  stop "job.py" w =
  (inr (Redirect "/"),
   World (kernel w) (Document (PDict (delete "job.py" d))) (scripts_dir w)
         (logs_dir w) (trace w ++ [EvSave (PDict (delete "job.py" d))])).
Proof.
  cbv zeta. split; [reflexivity|]. split; [reflexivity|]. split; [reflexivity|].
  split; [reflexivity|].
  exact (stop_clears_non_integer_slot "job.py"
           (Machine.job Machine.idle (PStr "abc"))
           {["job.py" := PStr "abc"]} (PStr "abc")
           eq_refl eq_refl eq_refl eq_refl).
Defined.

(** Deleting [job.py] where [other.py] is there too. *)
Lemma deleted_script_unlisted_witness :
  let w := Machine.boot (Machine.with_proc 7 Machine.worker Machine.idle)
             (Document (PDict {["job.py" := PInt 7]}))
             ["job.py"; "other.py"] in
  let d : gmap string pyval := {["job.py" := PInt 7]} in
  let w' := snd (delete_script "job.py" w) in
  registry w = inr (PDict d) /\
  listed w = ["job.py"; "other.py"] /\
  listed w' = ["other.py"] /\
  ("job.py" ∉ scripts_dir w') /\
  ("job.py" ∉ listed w') /\
  (forall g, g <> "job.py" -> (g ∈ listed w' <-> g ∈ listed w)).
Proof.
  cbv zeta. split; [reflexivity|]. split; [reflexivity|]. split; [reflexivity|].
  exact (deleted_script_unlisted "job.py"
           (Machine.boot (Machine.with_proc 7 Machine.worker Machine.idle)
              (Document (PDict {["job.py" := PInt 7]})) ["job.py"; "other.py"])
           {["job.py" := PInt 7]} eq_refl).
Defined.
